(** * Verification of the Anki tools server (src/anki.py)

    A shallow embedding of the four components of [src/anki.py]: the
    Anki-Connect client ([AnkiClient._request] and its wrappers), the text
    normalizer ([_strip_html]), the question formatter ([_format_question])
    and the two tools ([start_learning], [answer_and_get_next_card]).

    Python [str] values are modelled as [string] holding the UTF-8 encoding of
    the text, so that the literals of the source can be written as they are.
    Logging calls have no influence on results and are left out. *)

From Stdlib Require Import String Ascii List ZArith Bool Lia.
From Stdlib Require Import Floats.SpecFloat.
Import ListNotations.
Local Open Scope list_scope.
Local Open Scope string_scope.
Set Warnings "-register-all".

(** ** Python values obtained from JSON *)

(** What [json.load] produces: [None], [bool], [int], [float], [str],
    [list] and [dict] (insertion ordered, hence an association list). *)
Inductive json : Type :=
| JNull
| JBool (b : bool)
| JInt (z : Z)
| JFloat (f : spec_float)
| JStr (s : string)
| JArr (items : list json)
| JObj (fields : list (string * json)).

Definition dict : Type := list (string * json).

(** Python exceptions met by the program. *)
Inductive exn : Type :=
| AnkiConnectError (msg : string)
| ValueError (msg : string)
| KeyError (key : string)
| AttributeError (msg : string)
| TypeError (msg : string)
| OtherException (name : string).

Inductive outcome (A : Type) : Type :=
| Return (a : A)
| Raise (e : exn).
Arguments Return {A} a.
Arguments Raise {A} e.

(** Truth value of a Python object ([not x], [x or y]). *)
Definition truthy (v : json) : bool :=
  match v with
  | JNull => false
  | JBool b => b
  | JInt z => negb (Z.eqb z 0)
  | JFloat f => match f with S754_zero _ => false | _ => true end
  | JStr s => negb (String.eqb s "")
  | JArr items => match items with [] => false | _ => true end
  | JObj fields => match fields with [] => false | _ => true end
  end.

(** [x or y] *)
Definition py_or (x y : json) : json := if truthy x then x else y.

(** [v == "literal"]: only a [str] compares equal to a [str]. *)
Definition py_eq_str (v : json) (s : string) : bool :=
  match v with
  | JStr s' => String.eqb s' s
  | _ => false
  end.

(** [d[k]] and [d.get(k, default)] on the fields of a dict. *)
Fixpoint lookup (k : string) (d : dict) : option json :=
  match d with
  | [] => None
  | (k', v) :: rest => if String.eqb k' k then Some v else lookup k rest
  end.

Definition keys (d : dict) : list string := map fst d.

(** [obj[k]] *)
Definition py_getitem (obj : json) (k : string) : outcome json :=
  match obj with
  | JObj d => match lookup k d with
              | Some v => Return v
              | None => Raise (KeyError k)
              end
  | JArr _ => Raise (TypeError "list indices must be integers or slices, not str")
  | JStr _ => Raise (TypeError "string indices must be integers")
  | _ => Raise (TypeError "object is not subscriptable")
  end.

(** [obj.get(k, default)]: only a dict has the method. *)
Definition py_get (obj : json) (k : string) (default : json) : outcome json :=
  match obj with
  | JObj d => match lookup k d with
              | Some v => Return v
              | None => Return default
              end
  | _ => Raise (AttributeError "object has no attribute 'get'")
  end.

(** [obj.keys()] *)
Definition py_keys (obj : json) : outcome (list string) :=
  match obj with
  | JObj d => Return (keys d)
  | _ => Raise (AttributeError "object has no attribute 'keys'")
  end.

(** [set(xs) == set(ys)] on lists of strings. *)
Definition subsetb (xs ys : list string) : bool :=
  forallb (fun x => existsb (String.eqb x) ys) xs.

Definition set_eqb (xs ys : list string) : bool :=
  subsetb xs ys && subsetb ys xs.

(** ** Question formatter *)

Definition VOCAB_MODELS : list string := ["Vocabulary"; "Phrase"].

(** [model_name in VOCAB_MODELS] *)
Definition py_in (v : json) (l : list string) : bool :=
  existsb (py_eq_str v) l.

Definition _format_question (model_name template : json) (question_text : string)
  : string :=
  if py_in model_name VOCAB_MODELS then
    if py_eq_str template "card2" then question_text ++ " 的英文是什么？"
    else if py_eq_str template "card1" then question_text ++ " 是什么意思？"
    else question_text
  else question_text.

(** ** Text primitives used by the normalizer *)

Definition code (c : ascii) : N := N_of_ascii c.

Definition LF : ascii := ascii_of_N 10.
Definition newline : string := String LF "".

(** The one-byte code points that [str.strip] removes:
    U+0009..U+000D and U+001C..U+0020. *)
Definition ascii_space (c : ascii) : bool :=
  ((9 <=? code c) && (code c <=? 13) || (28 <=? code c) && (code c <=? 32))%N.

(** U+0085 and U+00A0, encoded [C2 85] and [C2 A0]. *)
Definition space2 (c d : ascii) : bool :=
  ((code c =? 194) && ((code d =? 133) || (code d =? 160)))%N.

(** U+1680, U+2000..U+200A, U+2028, U+2029, U+202F, U+205F and U+3000,
    encoded on three bytes. *)
Definition space3 (c d e : ascii) : bool :=
  ((code c =? 225) && (code d =? 154) && (code e =? 128)
   || (code c =? 226) && (code d =? 128)
      && ((128 <=? code e) && (code e <=? 138)
          || (code e =? 168) || (code e =? 169) || (code e =? 175))
   || (code c =? 226) && (code d =? 129) && (code e =? 159)
   || (code c =? 227) && (code d =? 128) && (code e =? 128))%N.

(** The text left after one leading whitespace code point, if there is one. *)
Definition space_prefix (s : string) : option string :=
  match s with
  | String c r =>
      if ascii_space c then Some r
      else match r with
           | String d r2 =>
               if space2 c d then Some r2
               else match r2 with
                    | String e r3 => if space3 c d e then Some r3 else None
                    | EmptyString => None
                    end
           | EmptyString => None
           end
  | EmptyString => None
  end.

Fixpoint lstrip_fuel (n : nat) (s : string) : string :=
  match n with
  | O => s
  | S n' => match space_prefix s with
            | Some r => lstrip_fuel n' r
            | None => s
            end
  end.

(** [s.lstrip()] *)
Definition lstrip (s : string) : string := lstrip_fuel (String.length s) s.

(** [s.isspace() or s == ""]: nothing but whitespace. *)
Definition blank (s : string) : bool := String.eqb (lstrip s) "".

(** [s.rstrip()]: the longest blank tail is cut off. *)
Fixpoint rstrip (s : string) : string :=
  match s with
  | EmptyString => EmptyString
  | String c r => if blank s then EmptyString else String c (rstrip r)
  end.

(** [s.strip()] *)
Definition strip (s : string) : string := rstrip (lstrip s).

(** [s.split("\n")] *)
Fixpoint split_lines (s : string) : list string :=
  match s with
  | EmptyString => [EmptyString]
  | String c r =>
      if Ascii.eqb c LF then EmptyString :: split_lines r
      else match split_lines r with
           | l :: ls => String c l :: ls
           | [] => [String c EmptyString]
           end
  end.

(** ["\n".join(ls)] *)
Fixpoint join_lines (ls : list string) : string :=
  match ls with
  | [] => EmptyString
  | [l] => l
  | l :: rest => l ++ newline ++ join_lines rest
  end.

Definition nonempty (s : string) : bool := negb (String.eqb s "").

(** Lines 87-88 of the source: strip every line, keep the non-empty ones. *)
Definition clean_lines (text : string) : string :=
  join_lines (filter nonempty (map strip (split_lines text))).

(** ** The parse tree and the tree operations of the normalizer *)

(** A BeautifulSoup tree: text nodes, the string nodes that [get_text]
    leaves out (comments, declarations, doctype) and tags. *)
Inductive PageElement : Type :=
| NavigableString (s : string)
| Comment (s : string)
| Tag (name : string) (attrs : list (string * string)) (contents : list PageElement).

Definition soup : Type := list PageElement.

Fixpoint attr (k : string) (attrs : list (string * string)) : option string :=
  match attrs with
  | [] => None
  | (k', v) :: rest => if String.eqb k' k then Some v else attr k rest
  end.

(** The whitespace-separated items of a multi-valued attribute. *)
Fixpoint words_fuel (n : nat) (cur : string) (s : string) : list string :=
  let flush := if nonempty cur then [cur] else [] in
  match n with
  | O => flush
  | S n' =>
      match space_prefix s with
      | Some r => (flush ++ words_fuel n' "" r)%list
      | None =>
          match s with
          | EmptyString => flush
          | String c r => words_fuel n' (cur ++ String c "") r
          end
      end
  end.

Definition words (s : string) : list string :=
  words_fuel (S (String.length s)) "" s.

(** The filter [class_=cls] of [find_all]. *)
Definition has_class (cls : string) (attrs : list (string * string)) : bool :=
  match attr "class" attrs with
  | Some v => existsb (String.eqb cls) (words v)
  | None => false
  end.

(** [find_all(name, class_=cls)] followed by [decompose()] on every hit:
    the matching elements disappear with everything below them. *)
Fixpoint decompose (name cls : string) (e : PageElement) : list PageElement :=
  match e with
  | Tag n a c =>
      if String.eqb n name && has_class cls a then []
      else [Tag n a (flat_map (decompose name cls) c)]
  | _ => [e]
  end.

(** [find_all("br")] followed by [replace_with("\n")] on every hit. *)
Fixpoint replace_br (e : PageElement) : PageElement :=
  match e with
  | Tag n a c =>
      if String.eqb n "br" then NavigableString newline
      else Tag n a (map replace_br c)
  | _ => e
  end.

(** [find_all("p")] followed by [insert_after("\n")] on every hit. *)
Fixpoint insert_after_p (e : PageElement) : list PageElement :=
  match e with
  | Tag n a c =>
      let e' := Tag n a (flat_map insert_after_p c) in
      if String.eqb n "p" then [e'; NavigableString newline] else [e']
  | _ => [e]
  end.

(** [get_text()] *)
Fixpoint get_text (e : PageElement) : string :=
  match e with
  | NavigableString s => s
  | Comment _ => ""
  | Tag _ _ c => String.concat "" (map get_text c)
  end.

Definition soup_text (t : soup) : string := String.concat "" (map get_text t).

(** Lines 77-86 of the source, on the tree the parser built. *)
Definition flatten (t : soup) : string :=
  let t1 := flat_map (decompose "div" "audio") t in
  let t2 := flat_map (decompose "dl" "footnote") t1 in
  let t3 := map replace_br t2 in
  let t4 := flat_map insert_after_p t3 in
  soup_text t4.

Section Normalizer.

(** [BeautifulSoup(markup, "html.parser")]: the parser belongs to a
    library, it is a parameter of the development. It is applied to
    whatever the card holds and may raise. *)
Variable BeautifulSoup : json -> outcome soup.

Definition _strip_html (html_content : json) : outcome string :=
  if negb (truthy html_content) then Return ""
  else
    match BeautifulSoup html_content with
    | Raise e => Raise e
    | Return t => Return (clean_lines (flatten t))
    end.

End Normalizer.

(** ** A reference tree builder

    A small parser for documents made of text, start tags with attributes,
    end tags and comments, building the tree the way the library does for
    such documents: tag names in lower case, void elements closed at once,
    an end tag closing the nearest open element of that name, every open
    element closed at the end of the input. Character references are left as
    they are. It instantiates the parser parameter in the examples. *)
Module RefParser.

Inductive token : Type :=
| TText (s : string)
| TMarkup (s : string).

Definition LT : ascii := "<"%char.
Definition GT : ascii := ">"%char.

Definition text_token (acc : string) : list token :=
  if nonempty acc then [TText acc] else [].

(** [in_tag]: the bytes read since the last [<] are in [acc]. *)
Fixpoint lex (in_tag : bool) (acc : string) (s : string) : list token :=
  match s with
  | EmptyString => if in_tag then [TText (String LT acc)] else text_token acc
  | String c r =>
      if in_tag then
        if Ascii.eqb c GT then TMarkup acc :: lex false "" r
        else lex true (acc ++ String c "") r
      else
        if Ascii.eqb c LT then (text_token acc ++ lex true "" r)%list
        else lex false (acc ++ String c "") r
  end.

Definition lower_char (c : ascii) : ascii :=
  if ((65 <=? code c) && (code c <=? 90))%N then ascii_of_N (code c + 32) else c.

Fixpoint lower (s : string) : string :=
  match s with
  | EmptyString => EmptyString
  | String c r => String (lower_char c) (lower r)
  end.

(** Attributes [name="value"], [name='value'], [name=value] and [name]. *)
Inductive attr_state : Type :=
| Between
| InName (n : string)
| AfterEq (n : string)
| InQuoted (q : ascii) (n v : string)
| InBare (n v : string).

Definition is_quote (c : ascii) : bool :=
  Ascii.eqb c (ascii_of_N 34) || Ascii.eqb c "'"%char.

Fixpoint attributes (st : attr_state) (s : string) : list (string * string) :=
  match s with
  | EmptyString =>
      match st with
      | Between => []
      | InName n | AfterEq n => [(lower n, "")]
      | InQuoted _ n v | InBare n v => [(lower n, v)]
      end
  | String c r =>
      match st with
      | Between =>
          if ascii_space c || Ascii.eqb c "/"%char then attributes Between r
          else attributes (InName (String c "")) r
      | InName n =>
          if Ascii.eqb c "="%char then attributes (AfterEq n) r
          else if ascii_space c then (lower n, "") :: attributes Between r
          else attributes (InName (n ++ String c "")) r
      | AfterEq n =>
          if is_quote c then attributes (InQuoted c n "") r
          else if ascii_space c then (lower n, "") :: attributes Between r
          else attributes (InBare n (String c "")) r
      | InQuoted q n v =>
          if Ascii.eqb c q then (lower n, v) :: attributes Between r
          else attributes (InQuoted q n (v ++ String c "")) r
      | InBare n v =>
          if ascii_space c then (lower n, v) :: attributes Between r
          else attributes (InBare n (v ++ String c "")) r
      end
  end.

(** The tag name at the head of a start tag and what follows it. *)
Fixpoint tag_name (acc : string) (s : string) : string * string :=
  match s with
  | EmptyString => (acc, "")
  | String c r =>
      if ascii_space c || Ascii.eqb c "/"%char then (acc, s)
      else tag_name (acc ++ String c "") r
  end.

Inductive event : Type :=
| Data (s : string)
| Skipped (s : string)
| StartTag (name : string) (attrs : list (string * string))
| EndTag (name : string).

Definition interpret (t : token) : event :=
  match t with
  | TText s => Data s
  | TMarkup m =>
      match m with
      | String "/"%char n => EndTag (lower (strip n))
      | String "!"%char _ | String "?"%char _ => Skipped m
      | _ => let (n, rest) := tag_name "" m in StartTag (lower n) (attributes Between rest)
      end
  end.

Definition void_elements : list string :=
  ["area"; "base"; "br"; "col"; "embed"; "hr"; "img"; "input"; "keygen";
   "link"; "menuitem"; "meta"; "param"; "source"; "track"; "wbr"].

(** An element still open: its name, its attributes and the siblings
    that precede it. *)
Definition frame : Type := string * list (string * string) * soup.

Fixpoint close_to (n : string) (stack : list frame) (cur : soup)
  : list frame * soup :=
  match stack with
  | [] => ([], cur)
  | (m, a, before) :: st =>
      let cur' := (before ++ [Tag m a cur])%list in
      if String.eqb m n then (st, cur') else close_to n st cur'
  end.

Fixpoint close_all (stack : list frame) (cur : soup) : soup :=
  match stack with
  | [] => cur
  | (m, a, before) :: st => close_all st (before ++ [Tag m a cur])%list
  end.

Definition is_open (n : string) (stack : list frame) : bool :=
  existsb (fun f => String.eqb (fst (fst f)) n) stack.

Fixpoint build (evs : list event) (stack : list frame) (cur : soup) : soup :=
  match evs with
  | [] => close_all stack cur
  | Data s :: rest => build rest stack (cur ++ [NavigableString s])%list
  | Skipped s :: rest => build rest stack (cur ++ [Comment s])%list
  | StartTag n a :: rest =>
      if existsb (String.eqb n) void_elements
      then build rest stack (cur ++ [Tag n a []])%list
      else build rest ((n, a, cur) :: stack) []
  | EndTag n :: rest =>
      if is_open n stack
      then let (st, cur') := close_to n stack cur in build rest st cur'
      else build rest stack cur
  end.

Definition parse (markup : string) : soup :=
  build (map interpret (lex false "" markup)) [] [].

(** The parser applied to a Python value: only text is accepted. *)
Definition BeautifulSoup (markup : json) : outcome soup :=
  match markup with
  | JStr s => Return (parse s)
  | _ => Raise (TypeError "markup is not text")
  end.

End RefParser.


(** ** The external application and the effects of the program *)

(** An HTTP POST: the endpoint and the JSON document of the body. *)
Record request : Type := { url : string; data : json }.

(** What [urlopen] followed by [json.load] gives: a [URLError], any other
    exception (a body that is not JSON, for one), or the parsed body. *)
Inductive reply : Type :=
| Unreachable
| Failure (e : exn)
| Response (body : json).

(** What the program does to the outside, oldest first. *)
Inductive effect : Type :=
| Posted (r : request)
| Slept (seconds : Z).

Record AnkiClient : Type := { endpoint : string }.

(** [anki = AnkiClient()] *)
Definition anki : AnkiClient := {| endpoint := "http://127.0.0.1:8765" |}.

Definition is_none (v : json) : bool :=
  match v with JNull => true | _ => false end.

(** [ease in {1, 2, 3, 4}] *)
Definition valid_ease (ease : Z) : bool := existsb (Z.eqb ease) [1; 2; 3; 4]%Z.

(** The dict returned when the deck is finished (lines 167-174). *)
Definition deck_finished : dict :=
  [("success", JBool true); ("deck_finished", JBool true);
   ("model_name", JStr ""); ("deck_name", JStr "");
   ("question", JStr ""); ("answer", JStr "")].

(** The body of a request (lines 33-37); [params] is [JNull] when the
    argument is left out. *)
Definition payload (action : string) (params : json) : json :=
  JObj [("action", JStr action); ("version", JInt 6);
        ("params", py_or params (JObj []))].

Definition request_of (self : AnkiClient) (action : string) (params : json)
  : request :=
  {| url := endpoint self; data := payload action params |}.

Section Tools.

(** The external application: its state and its answer to a request. *)
Variable App : Type.
Variable urlopen : request -> App -> reply * App.

(** [repr] of a Python value, as used by [%s] and [str]. *)
Variable py_repr : json -> string.

Variable BeautifulSoup : json -> outcome soup.

Record World : Type := { app : App; trace : list effect }.

(** Computations that act on the world and return or raise. *)
Definition M (A : Type) : Type := World -> outcome A * World.

Definition ret {A : Type} (a : A) : M A := fun w => (Return a, w).

Definition raise {A : Type} (e : exn) : M A := fun w => (Raise e, w).

Definition bind {A B : Type} (m : M A) (k : A -> M B) : M B :=
  fun w =>
    match m w with
    | (Return a, w') => k a w'
    | (Raise e, w') => (Raise e, w')
    end.

Definition lift {A : Type} (o : outcome A) : M A := fun w => (o, w).

Notation "x <- m ;; k" := (bind m (fun x => k))
  (at level 61, m at next level, right associativity).

(** [try: body except AnkiConnectError: handler] *)
Definition try_except_AnkiConnectError {A : Type} (body handler : M A) : M A :=
  fun w =>
    match body w with
    | (Raise (AnkiConnectError _), w') => handler w'
    | r => r
    end.

Definition post (r : request) : M reply :=
  fun w =>
    let (rep, a) := urlopen r (app w) in
    (Return rep, {| app := a; trace := (trace w ++ [Posted r])%list |}).

(** [time.sleep(seconds)] *)
Definition sleep (seconds : Z) : M unit :=
  fun w => (Return tt, {| app := app w; trace := (trace w ++ [Slept seconds])%list |}).

(** [str(v)] *)
Definition py_str (v : json) : string :=
  match v with
  | JStr s => s
  | _ => py_repr v
  end.

(** [AnkiClient._request] *)
Definition _request (self : AnkiClient) (action : string) (params : json) : M json :=
  rep <- post (request_of self action params) ;;
  match rep with
  | Unreachable =>
      raise (AnkiConnectError "Anki-Connect is not reachable – is Anki running?")
  | Failure e => raise e
  | Response response =>
      ks <- lift (py_keys response) ;;
      if negb (set_eqb ks ["result"; "error"]) then
        raise (AnkiConnectError
                 ("Invalid response from Anki-Connect: " ++ py_repr response))
      else
        err <- lift (py_getitem response "error") ;;
        if negb (is_none err) then raise (AnkiConnectError (py_str err))
        else lift (py_getitem response "result")
  end.

Definition gui_current_card (self : AnkiClient) : M json :=
  _request self "guiCurrentCard" JNull.

Definition gui_show_answer (self : AnkiClient) : M unit :=
  _ <- _request self "guiShowAnswer" JNull ;; ret tt.

Definition gui_answer_card (self : AnkiClient) (ease : Z) : M unit :=
  _ <- _request self "guiAnswerCard" (JObj [("ease", JInt ease)]) ;; ret tt.

Definition cards_info (self : AnkiClient) (card_ids : list json) : M json :=
  _request self "cardsInfo" (JObj [("cards", JArr card_ids)]).

Definition _get_current_card_info : M dict :=
  card <- gui_current_card anki ;;
  card_id <- lift (py_get card "cardId" JNull) ;;
  model_name <- lift (py_getitem card "modelName") ;;
  template <- lift (py_getitem card "template") ;;
  _ <- gui_show_answer anki ;;
  question <- lift (py_get card "question" (JStr "")) ;;
  original_question <- lift (_strip_html BeautifulSoup question) ;;
  let formatted_question := _format_question model_name template original_question in
  deck_name <- lift (py_get card "deckName" (JStr "")) ;;
  answer <- lift (py_get card "answer" (JStr "")) ;;
  answer_text <- lift (_strip_html BeautifulSoup answer) ;;
  ret [("success", JBool true);
       ("model_name", model_name);
       ("template", template);
       ("deck_name", deck_name);
       ("question", JStr formatted_question);
       ("answer", JStr answer_text)].

Definition start_learning : M dict := _get_current_card_info.

Definition answer_and_get_next_card (ease : Z) : M dict :=
  if negb (valid_ease ease) then raise (ValueError "ease must be 1-4")
  else
    _ <- gui_answer_card anki ease ;;
    _ <- sleep 1 ;;
    try_except_AnkiConnectError _get_current_card_info (ret deck_finished).

End Tools.

Arguments app {App} w.
Arguments trace {App} w.
Arguments Build_World {App} app trace.

(** ** Instances used in the examples *)

(** An application that answers from a script, whatever it is asked, and
    is unreachable once the script is over. *)
Definition Script : Type := list reply.

Definition play (r : request) (s : Script) : reply * Script :=
  match s with
  | [] => (Unreachable, [])
  | rep :: rest => (rep, rest)
  end.

(** A well-formed envelope around a result, and around an error. *)
Definition envelope (result : json) : json :=
  JObj [("result", result); ("error", JNull)].

Definition error_envelope (msg : string) : json :=
  JObj [("result", JNull); ("error", JStr msg)].

(** An application in review mode over the cards of a deck: the current card
    is the first one, answering it moves to the next. *)
Definition Deck : Type := list json.

Definition review (r : request) (d : Deck) : reply * Deck :=
  match py_getitem (data r) "action" with
  | Return a =>
      if py_eq_str a "guiCurrentCard" then
        match d with
        | card :: _ => (Response (envelope card), d)
        | [] => (Response (error_envelope "Gui review is not currently active."), d)
        end
      else if py_eq_str a "guiShowAnswer" then (Response (envelope (JBool true)), d)
      else if py_eq_str a "guiAnswerCard" then (Response (envelope (JBool true)), tl d)
      else (Response (error_envelope "unsupported action"), d)
  | Raise _ => (Response (error_envelope "unsupported action"), d)
  end.

(** A stand-in for [repr] in the examples: text is quoted, anything else is
    shown by the name of its type. *)
Definition type_repr (v : json) : string :=
  match v with
  | JNull => "None"
  | JBool true => "True"
  | JBool false => "False"
  | JInt _ => "int"
  | JFloat _ => "float"
  | JStr s => "'" ++ s ++ "'"
  | JArr _ => "list"
  | JObj _ => "dict"
  end.

Definition apple_card : json :=
  JObj [("cardId", JInt 1498938915662); ("modelName", JStr "Vocabulary");
        ("template", JStr "card1"); ("deckName", JStr "English");
        ("question", JStr "<div class='audio'>[sound:apple.mp3]</div><p>apple</p>");
        ("answer", JStr "<p>apple</p><hr id=answer><p>苹果</p>")].

(** A card without [modelName]. *)
Definition nameless_card : json :=
  JObj [("cardId", JInt 7); ("template", JStr "card1");
        ("deckName", JStr "English"); ("question", JStr "pear");
        ("answer", JStr "梨")].

(** A card with the two indexed fields only. *)
Definition bare_card : json :=
  JObj [("modelName", JStr "Basic"); ("template", JStr "card1")].

Definition fresh {App : Type} (a : App) : World App := Build_World a [].

(** The document of the worked example of the normalizer and its tree. *)
Definition hello_world_html : string := "<p>Hello</p><br><p>World</p>".

Definition hello_world_tree : soup :=
  [Tag "p" [] [NavigableString "Hello"]; Tag "br" [] [];
   Tag "p" [] [NavigableString "World"]].

(** The two prompts of the formatter. *)
Definition prompt_card2 : string := " 的英文是什么？".
Definition prompt_card1 : string := " 是什么意思？".

(** The world once a request has been posted and the application has moved
    to state [a]. *)
Definition after_post {App : Type} (w : World App) (r : request) (a : App)
  : World App :=
  Build_World a (trace w ++ [Posted r])%list.

(** [d.get(k, default)] on the fields of a dict. *)
Definition dict_get (d : dict) (k : string) (default : json) : json :=
  match lookup k d with
  | Some v => v
  | None => default
  end.

(** The key set demanded of a response (line 50). *)
Definition exact_keys (m : dict) : Prop :=
  forall k, In k (keys m) <-> k = "result" \/ k = "error".

(** The dict built at lines 118-125. *)
Definition card_info (model_name template deck_name : json) (question answer : string)
  : dict :=
  [("success", JBool true); ("model_name", model_name); ("template", template);
   ("deck_name", deck_name); ("question", JStr question); ("answer", JStr answer)].

Definition not_reachable : string :=
  "Anki-Connect is not reachable – is Anki running?".

(** The world once the program has slept. *)
Definition after_sleep {App : Type} (w : World App) (seconds : Z) : World App :=
  Build_World (app w) (trace w ++ [Slept seconds])%list.

Definition card_keys : list string :=
  ["success"; "model_name"; "template"; "deck_name"; "question"; "answer"].

Definition deck_finished_keys : list string :=
  ["success"; "deck_finished"; "model_name"; "deck_name"; "question"; "answer"].

(** The tools over a deck in review, and over a scripted application. *)
Definition deck_start_learning : M Deck dict :=
  start_learning Deck review type_repr RefParser.BeautifulSoup.

Definition deck_answer_and_get_next_card (ease : Z) : M Deck dict :=
  answer_and_get_next_card Deck review type_repr RefParser.BeautifulSoup ease.

Definition script_request : AnkiClient -> string -> json -> M Script json :=
  _request Script play type_repr.

Definition script_card_info : M Script dict :=
  _get_current_card_info Script play type_repr RefParser.BeautifulSoup.

Definition script_answer_and_get_next_card (ease : Z) : M Script dict :=
  answer_and_get_next_card Script play type_repr RefParser.BeautifulSoup ease.

(** The answer is accepted, then the application cannot be reached. *)
Definition outage_after_answer : Script :=
  [Response (envelope (JBool true)); Unreachable].

(** Every byte of [s] satisfies [P]. *)
Fixpoint all_chars (P : ascii -> bool) (s : string) : bool :=
  match s with
  | EmptyString => true
  | String c r => P c && all_chars P r
  end.

(** Text without markup: no tag can start and no character reference. *)
Definition markup_char (c : ascii) : bool :=
  Ascii.eqb c "<"%char || Ascii.eqb c "&"%char.

Definition markup_free (s : string) : bool :=
  all_chars (fun c => negb (markup_char c)) s.

Definition no_LF (s : string) : bool :=
  all_chars (fun c => negb (Ascii.eqb c LF)) s.

(** ** Reading the tree in one traversal *)

(** The text of an element as one traversal collects it: nothing for an
    audio div, a footnote list or a comment, a newline for a line break, the
    text of the children otherwise, followed by a newline for a paragraph. *)
Fixpoint text_of (e : PageElement) : string :=
  match e with
  | NavigableString s => s
  | Comment _ => ""
  | Tag n a c =>
      if String.eqb n "div" && has_class "audio" a then ""
      else if String.eqb n "dl" && has_class "footnote" a then ""
      else if String.eqb n "br" then newline
      else String.concat "" (map text_of c)
           ++ (if String.eqb n "p" then newline else "")
  end.

(** Every text node below the element is blank. *)
Fixpoint blank_texts (e : PageElement) : bool :=
  match e with
  | NavigableString s => blank s
  | Comment _ => true
  | Tag _ _ c => forallb blank_texts c
  end.

(** Induction on a tree, with the property at hand for every child. *)
Fixpoint PageElement_forest_ind (P : PageElement -> Prop)
         (Hs : forall s, P (NavigableString s))
         (Hc : forall s, P (Comment s))
         (Ht : forall n a c, Forall P c -> P (Tag n a c))
         (e : PageElement) : P e :=
  match e with
  | NavigableString s => Hs s
  | Comment s => Hc s
  | Tag n a c =>
      Ht n a c
         ((fix children (l : list PageElement) : Forall P l :=
             match l with
             | [] => Forall_nil P
             | x :: r =>
                 Forall_cons x (PageElement_forest_ind P Hs Hc Ht x) (children r)
             end) c)
  end.

(** * Properties *)

(** ** Runs of the model on concrete inputs *)

Example format_vocabulary_card2 :
  _format_question (JStr "Vocabulary") (JStr "card2") "apple" = "apple 的英文是什么？".
Proof. reflexivity. Qed.

Example suffix_card2_bytes : String.length " 的英文是什么？" = 22.
Proof. reflexivity. Qed.

Example strip_example : strip ("  a b" ++ newline ++ " ") = "a b".
Proof. reflexivity. Qed.

Example clean_lines_example :
  clean_lines (" Hello " ++ newline ++ newline ++ "   " ++ newline ++ "World")
  = "Hello" ++ newline ++ "World".
Proof. reflexivity. Qed.

Example strip_ideographic_space : strip "　中文　" = "中文".
Proof. reflexivity. Qed.

Example flatten_example :
  clean_lines (flatten
    [Tag "div" [("class", "audio player")] [NavigableString "x.mp3"];
     Tag "p" [] [NavigableString " Hello "; Tag "br" [] []; NavigableString "there"];
     Comment "note";
     Tag "dl" [("class", "footnote")] [Tag "p" [] [NavigableString "1"]];
     Tag "b" [] [NavigableString "World"]])
  = "Hello" ++ newline ++ "there" ++ newline ++ "World".
Proof. reflexivity. Qed.

Example parse_hello_world :
  RefParser.parse "<p>Hello</p><br><p>World</p>"
  = [Tag "p" [] [NavigableString "Hello"]; Tag "br" [] [];
     Tag "p" [] [NavigableString "World"]].
Proof. reflexivity. Qed.

Example parse_nested :
  RefParser.parse "<DIV class='audio x' id=a><b>s</b>t</div>u<br/>v<!-- c --><i>w"
  = [Tag "div" [("class", "audio x"); ("id", "a")]
       [Tag "b" [] [NavigableString "s"]; NavigableString "t"];
     NavigableString "u"; Tag "br" [] []; NavigableString "v";
     Comment "!-- c --"; Tag "i" [] [NavigableString "w"]].
Proof. reflexivity. Qed.

Example strip_html_audio :
  _strip_html RefParser.BeautifulSoup
    (JStr "<div class='audio'>[sound:a.mp3]</div><p> apple </p>  <p>pie</p>")
  = Return ("apple" ++ newline ++ "pie").
Proof. reflexivity. Qed.


(** ** Question formatter *)

Lemma append_empty_r (s : string) : s ++ "" = s.
Proof. induction s as [|c s IH]; simpl; [reflexivity | now rewrite IH]. Qed.

Lemma py_in_vocab (model_name : json) :
  py_in model_name VOCAB_MODELS = true <->
  model_name = JStr "Vocabulary" \/ model_name = JStr "Phrase".
Proof.
  unfold py_in, VOCAB_MODELS; simpl. split.
  - destruct model_name; simpl; try discriminate.
    rewrite orb_false_r. intros H. apply orb_true_iff in H.
    destruct H as [H|H]; apply String.eqb_eq in H; subst; auto.
  - intros [->| ->]; reflexivity.
Qed.

(** C7: with a model name of the vocabulary set, template [card2] appends the
    prompt for the English word and [card1] the prompt for the meaning; any
    other template of such a model, and any template of any other model,
    leaves the question as it is. *)
Theorem C7_format_question_cases (model_name template : json) (q : string) :
  (model_name = JStr "Vocabulary" \/ model_name = JStr "Phrase" ->
     _format_question model_name (JStr "card2") q = q ++ " 的英文是什么？"
     /\ _format_question model_name (JStr "card1") q = q ++ " 是什么意思？"
     /\ (template <> JStr "card2" -> template <> JStr "card1" ->
         _format_question model_name template q = q))
  /\ (~ (model_name = JStr "Vocabulary" \/ model_name = JStr "Phrase") ->
      _format_question model_name template q = q).
Proof.
  split.
  - intros Hm. apply py_in_vocab in Hm. unfold _format_question. rewrite Hm.
    repeat split; try reflexivity.
    intros H2 H1.
    destruct template; simpl; try reflexivity.
    destruct (String.eqb s "card2") eqn:E2.
    + apply String.eqb_eq in E2; subst; congruence.
    + destruct (String.eqb s "card1") eqn:E1; [|reflexivity].
      apply String.eqb_eq in E1; subst; congruence.
  - intros Hm. unfold _format_question.
    destruct (py_in model_name VOCAB_MODELS) eqn:E; [|reflexivity].
    apply py_in_vocab in E. contradiction.
Qed.

Lemma C7_format_question_cases_witness :
  _format_question (JStr "Phrase") (JStr "card2") "take off" = "take off 的英文是什么？"
  /\ _format_question (JStr "Phrase") (JStr "card1") "take off" = "take off 是什么意思？"
  /\ _format_question (JStr "Phrase") (JStr "card3") "take off" = "take off"
  /\ _format_question (JStr "Basic") (JStr "card1") "take off" = "take off".
Proof.
  destruct (C7_format_question_cases (JStr "Phrase") (JStr "card3") "take off")
    as [Hv _].
  destruct (C7_format_question_cases (JStr "Basic") (JStr "card1") "take off")
    as [_ Hn].
  destruct Hv as (H2 & H1 & H3); [right; reflexivity|].
  split; [exact H2|]. split; [exact H1|]. split.
  - apply H3; discriminate.
  - apply Hn. intros [H|H]; discriminate.
Defined.

(** C10: whatever the model name and the template, the formatted question is
    the given question followed by a suffix, which is empty or one of the
    two prompts: nothing of the question is removed or rewritten. *)
Theorem C10_format_question_keeps_question (model_name template : json) (q : string) :
  exists suffix,
    _format_question model_name template q = q ++ suffix
    /\ (suffix = "" \/ suffix = prompt_card2 \/ suffix = prompt_card1).
Proof.
  unfold _format_question.
  destruct (py_in model_name VOCAB_MODELS).
  - destruct (py_eq_str template "card2").
    + exists prompt_card2. auto.
    + destruct (py_eq_str template "card1").
      * exists prompt_card1. auto.
      * exists "". rewrite append_empty_r. auto.
  - exists "". rewrite append_empty_r. auto.
Qed.

(** ** Normalizer: the worked example *)

(** C8: on [<p>Hello</p><br><p>World</p>], parsed as two paragraphs around a
    line break, the flattened text has a newline for the break and one after
    each paragraph, and the normalizer returns the two lines [Hello] and
    [World] with the blank lines dropped. *)
Theorem C8_strip_html_hello_world (BeautifulSoup : json -> outcome soup) :
  BeautifulSoup (JStr hello_world_html) = Return hello_world_tree ->
  flatten hello_world_tree = "Hello" ++ newline ++ newline ++ "World" ++ newline
  /\ _strip_html BeautifulSoup (JStr "<p>Hello</p><br><p>World</p>")
     = Return ("Hello" ++ newline ++ "World").
Proof.
  intros H. split; [reflexivity|].
  unfold _strip_html. change (JStr "<p>Hello</p><br><p>World</p>") with (JStr hello_world_html).
  simpl truthy. simpl negb. cbv iota. rewrite H. reflexivity.
Qed.

Lemma C8_strip_html_hello_world_witness :
  RefParser.BeautifulSoup (JStr hello_world_html) = Return hello_world_tree
  /\ _strip_html RefParser.BeautifulSoup (JStr "<p>Hello</p><br><p>World</p>")
     = Return ("Hello" ++ newline ++ "World").
Proof.
  split; [reflexivity|].
  apply (C8_strip_html_hello_world RefParser.BeautifulSoup). reflexivity.
Defined.

(** ** Stripping whitespace *)

Ltac bools H :=
  repeat (rewrite ?orb_true_iff, ?andb_true_iff, ?orb_false_iff, ?andb_false_iff,
            ?N.eqb_eq, ?N.eqb_neq, ?N.leb_le, ?N.leb_gt in H).

Ltac bools_goal :=
  repeat (rewrite ?orb_true_iff, ?andb_true_iff, ?orb_false_iff, ?andb_false_iff,
            ?N.eqb_eq, ?N.eqb_neq, ?N.leb_le, ?N.leb_gt).

Lemma space_prefix_shorter (s r : string) :
  space_prefix s = Some r -> String.length r < String.length s.
Proof.
  destruct s as [|c [|d [|e r3]]]; simpl; try discriminate;
    destruct (ascii_space c); try discriminate;
    try (intros H; inversion H; subst; simpl; lia).
  - destruct (space2 c d); [intros H; inversion H; simpl; lia | discriminate].
  - destruct (space2 c d); [intros H; inversion H; simpl; lia |].
    destruct (space3 c d e); [intros H; inversion H; simpl; lia | discriminate].
Qed.

Lemma space_prefix_all (P : ascii -> bool) (s r : string) :
  space_prefix s = Some r -> all_chars P s = true -> all_chars P r = true.
Proof.
  destruct s as [|c [|d [|e r3]]]; simpl; try discriminate;
    destruct (ascii_space c); try discriminate;
    try (intros H; inversion H; subst; simpl; intros Hp; bools Hp; bools_goal; tauto).
  - destruct (space2 c d); [|discriminate].
    intros H; inversion H; subst; simpl; intros Hp; bools Hp; tauto.
  - destruct (space2 c d).
    + intros H; inversion H; subst; simpl; intros Hp; bools Hp; bools_goal; tauto.
    + destruct (space3 c d e); [|discriminate].
      intros H; inversion H; subst; simpl; intros Hp; bools Hp; tauto.
Qed.

Lemma lstrip_fuel_stripped (n : nat) (s : string) :
  String.length s <= n -> space_prefix (lstrip_fuel n s) = None.
Proof.
  revert s. induction n as [|n IH]; intros s Hn; simpl.
  - destruct s; [reflexivity | simpl in Hn; lia].
  - destruct (space_prefix s) as [r|] eqn:E; [|exact E].
    apply IH. apply space_prefix_shorter in E. lia.
Qed.

Lemma lstrip_fuel_stable (n k : nat) (s : string) :
  String.length s <= n -> String.length s <= k -> lstrip_fuel n s = lstrip_fuel k s.
Proof.
  revert k s. induction n as [|n IH]; intros k s Hn Hk.
  - destruct s; [|simpl in Hn; lia]. destruct k; reflexivity.
  - destruct k as [|k].
    + destruct s; [reflexivity | simpl in Hk; lia].
    + simpl. destruct (space_prefix s) as [r|] eqn:E; [|reflexivity].
      apply space_prefix_shorter in E. apply IH; lia.
Qed.

Lemma lstrip_fuel_enough (n : nat) (s : string) :
  String.length s <= n -> lstrip_fuel n s = lstrip s.
Proof. intros Hn. unfold lstrip. apply lstrip_fuel_stable; lia. Qed.

Lemma lstrip_step (s r : string) : space_prefix s = Some r -> lstrip s = lstrip r.
Proof.
  intros E. pose proof (space_prefix_shorter _ _ E) as Hl.
  unfold lstrip at 1. destruct (String.length s) as [|k] eqn:Hk; [lia|].
  simpl. rewrite E. apply lstrip_fuel_enough. lia.
Qed.

Lemma lstrip_fixed (s : string) : space_prefix s = None -> lstrip s = s.
Proof.
  intros E. unfold lstrip. destruct (String.length s); simpl; [reflexivity|].
  now rewrite E.
Qed.

Lemma lstrip_stripped (s : string) : space_prefix (lstrip s) = None.
Proof. apply lstrip_fuel_stripped. lia. Qed.

Lemma lstrip_all (P : ascii -> bool) (s : string) :
  all_chars P s = true -> all_chars P (lstrip s) = true.
Proof.
  unfold lstrip. generalize (String.length s) as n. intros n. revert s.
  induction n as [|n IH]; intros s Hp; simpl; [exact Hp|].
  destruct (space_prefix s) as [r|] eqn:E; [|exact Hp].
  apply IH. eapply space_prefix_all; eauto.
Qed.

Lemma blank_step (s r : string) : space_prefix s = Some r -> blank s = blank r.
Proof. intros E. unfold blank. now rewrite (lstrip_step _ _ E). Qed.

Lemma blank_fixed (s : string) :
  space_prefix s = None -> blank s = String.eqb s "".
Proof. intros E. unfold blank. now rewrite lstrip_fixed. Qed.

Lemma blank_empty : blank "" = true.
Proof. reflexivity. Qed.

Lemma rstrip_eq (c : ascii) (r : string) :
  rstrip (String c r) = if blank (String c r) then "" else String c (rstrip r).
Proof. reflexivity. Qed.

Lemma rstrip_all (P : ascii -> bool) (s : string) :
  all_chars P s = true -> all_chars P (rstrip s) = true.
Proof.
  induction s as [|c r IH]; [trivial|]. rewrite rstrip_eq.
  destruct (blank (String c r)); [reflexivity|].
  simpl. intros Hp. bools Hp. bools_goal. tauto.
Qed.

(** The bytes that continue a code point start no whitespace. *)
Lemma continuation_not_space (d : ascii) (x : string) :
  (128 <= code d <= 191)%N -> space_prefix (String d x) = None.
Proof.
  intros Hd.
  assert (H1 : ascii_space d = false).
  { unfold ascii_space. bools_goal. lia. }
  assert (H2 : forall e, space2 d e = false).
  { intros e. unfold space2. bools_goal. lia. }
  assert (H3 : forall e f, space3 d e f = false).
  { intros e f. unfold space3. bools_goal. lia. }
  simpl. rewrite H1. destruct x as [|e [|f x]]; trivial; rewrite H2; trivial.
  now rewrite H3.
Qed.

Lemma space2_continuation (c d : ascii) :
  space2 c d = true -> (128 <= code d <= 191)%N.
Proof. unfold space2. intros H. bools H. lia. Qed.

Lemma space3_continuation (c d e : ascii) :
  space3 c d e = true -> (128 <= code d <= 191)%N /\ (128 <= code e <= 191)%N.
Proof. unfold space3. intros H. bools H. lia. Qed.

Lemma continuation_not_blank (d : ascii) (x : string) :
  (128 <= code d <= 191)%N -> blank (String d x) = false.
Proof.
  intros Hd. rewrite blank_fixed by now apply continuation_not_space. reflexivity.
Qed.

Lemma rstrip_keeps_stripped (s : string) :
  space_prefix s = None -> space_prefix (rstrip s) = None.
Proof.
  destruct s as [|c r]; [trivial|]. intros H. rewrite rstrip_eq.
  destruct (blank (String c r)); [reflexivity|].
  unfold space_prefix in *. destruct (ascii_space c); [discriminate|].
  destruct r as [|d r2]; [reflexivity|]. rewrite rstrip_eq.
  destruct (blank (String d r2)); [reflexivity|].
  destruct (space2 c d); [discriminate|].
  destruct r2 as [|e r3]; [reflexivity|]. rewrite rstrip_eq.
  destruct (blank (String e r3)); [reflexivity|].
  destruct (space3 c d e); [discriminate | reflexivity].
Qed.

(** Cutting the blank tail commutes with dropping a leading whitespace code
    point, as long as something else is left. *)
Lemma rstrip_space_prefix (s r : string) :
  space_prefix s = Some r -> blank r = false ->
  space_prefix (rstrip s) = Some (rstrip r).
Proof.
  intros E Hb. pose proof (blank_step _ _ E) as Hs. rewrite Hb in Hs.
  destruct s as [|c s1]; [discriminate|].
  rewrite rstrip_eq, Hs. unfold space_prefix in *.
  destruct (ascii_space c); [now inversion E|].
  destruct s1 as [|d s2]; [discriminate|].
  destruct (space2 c d) eqn:B.
  - inversion E; subst s2. rewrite rstrip_eq.
    rewrite continuation_not_blank by now apply space2_continuation in B.
    now rewrite B.
  - destruct s2 as [|e s3]; [discriminate|].
    destruct (space3 c d e) eqn:C; [|discriminate].
    inversion E; subst s3. apply space3_continuation in C as Hc.
    rewrite rstrip_eq, continuation_not_blank by tauto.
    rewrite rstrip_eq, continuation_not_blank by tauto.
    now rewrite B, C.
Qed.

Lemma rstrip_not_blank (s : string) : blank s = false -> blank (rstrip s) = false.
Proof.
  remember (String.length s) as n eqn:Hn.
  assert (Hle : String.length s <= n) by lia. clear Hn.
  revert s Hle. induction n as [|n IH]; intros s Hle Hb.
  - destruct s; [discriminate | simpl in Hle; lia].
  - destruct (space_prefix s) as [r|] eqn:E.
    + pose proof (blank_step _ _ E) as Hr. rewrite Hb in Hr. symmetry in Hr.
      rewrite (blank_step _ _ (rstrip_space_prefix _ _ E Hr)).
      apply IH; [|exact Hr]. apply space_prefix_shorter in E. lia.
    + rewrite blank_fixed by now apply rstrip_keeps_stripped.
      destruct s as [|c r]; [discriminate|]. now rewrite rstrip_eq, Hb.
Qed.

Lemma rstrip_idempotent (s : string) : rstrip (rstrip s) = rstrip s.
Proof.
  induction s as [|c r IH]; [reflexivity|].
  pose proof (rstrip_not_blank (String c r)) as Hn.
  rewrite rstrip_eq in *. destruct (blank (String c r)); [reflexivity|].
  rewrite rstrip_eq, (Hn eq_refl), IH. reflexivity.
Qed.

Lemma strip_stripped (s : string) : space_prefix (strip s) = None.
Proof. apply rstrip_keeps_stripped, lstrip_stripped. Qed.

Lemma strip_idempotent (s : string) : strip (strip s) = strip s.
Proof.
  unfold strip at 1. rewrite lstrip_fixed by apply strip_stripped.
  unfold strip. apply rstrip_idempotent.
Qed.

Lemma strip_all (P : ascii -> bool) (s : string) :
  all_chars P s = true -> all_chars P (strip s) = true.
Proof. intros H. now apply rstrip_all, lstrip_all. Qed.

(** ** Lines *)

Lemma all_chars_append (P : ascii -> bool) (a b : string) :
  all_chars P (a ++ b) = all_chars P a && all_chars P b.
Proof.
  induction a as [|c a IH]; simpl; [reflexivity|]. now rewrite IH, andb_assoc.
Qed.

Lemma split_lines_not_nil (s : string) : split_lines s <> [].
Proof.
  induction s as [|c r IH]; simpl; [discriminate|].
  destruct (Ascii.eqb c LF); [discriminate|].
  destruct (split_lines r); [contradiction | discriminate].
Qed.

Lemma split_lines_all (P : ascii -> bool) (s l : string) :
  all_chars P s = true -> In l (split_lines s) -> all_chars P l = true.
Proof.
  revert l. induction s as [|c r IH]; simpl; intros l Hp Hl.
  - destruct Hl as [<-|[]]. reflexivity.
  - bools Hp. destruct Hp as [Hc Hr].
    destruct (Ascii.eqb c LF).
    + destruct Hl as [<-|Hl]; [reflexivity | auto].
    + destruct (split_lines r) as [|l0 ls] eqn:E.
      * destruct Hl as [<-|[]]. simpl. now rewrite Hc.
      * destruct Hl as [<-|Hl].
        -- simpl. rewrite Hc. apply IH; simpl; auto.
        -- apply IH; simpl; auto.
Qed.

Lemma split_lines_no_LF (s l : string) : In l (split_lines s) -> no_LF l = true.
Proof.
  revert l. induction s as [|c r IH]; simpl; intros l Hl.
  - destruct Hl as [<-|[]]. reflexivity.
  - destruct (Ascii.eqb c LF) eqn:Ec.
    + destruct Hl as [<-|Hl]; [reflexivity | auto].
    + destruct (split_lines r) as [|l0 ls] eqn:E.
      * destruct Hl as [<-|[]]. unfold no_LF. simpl. now rewrite Ec.
      * destruct Hl as [<-|Hl].
        -- unfold no_LF. simpl. rewrite Ec. apply IH; simpl; auto.
        -- apply IH; simpl; auto.
Qed.

Lemma split_lines_one (l : string) : no_LF l = true -> split_lines l = [l].
Proof.
  unfold no_LF. induction l as [|c l IH]; simpl; [reflexivity|].
  intros H. bools H. destruct H as [Hc Hl].
  apply negb_true_iff in Hc. rewrite Hc, (IH Hl). reflexivity.
Qed.

Lemma split_lines_append (l rest : string) :
  no_LF l = true -> split_lines (l ++ String LF rest) = l :: split_lines rest.
Proof.
  unfold no_LF. induction l as [|c l IH]; simpl.
  - intros _. reflexivity.
  - intros H. bools H. destruct H as [Hc Hl].
    apply negb_true_iff in Hc. rewrite Hc, (IH Hl). reflexivity.
Qed.

Lemma split_join_lines (ls : list string) :
  ls <> [] -> (forall l, In l ls -> no_LF l = true) ->
  split_lines (join_lines ls) = ls.
Proof.
  induction ls as [|l ls IH]; [congruence|]. intros _ H.
  destruct ls as [|l2 ls].
  - simpl. apply split_lines_one, H. simpl; auto.
  - change (join_lines (l :: l2 :: ls))
      with (l ++ String LF (join_lines (l2 :: ls))).
    rewrite split_lines_append by (apply H; simpl; auto).
    rewrite IH; [reflexivity | discriminate | intros x Hx; apply H; simpl; auto].
Qed.

Lemma join_lines_all (P : ascii -> bool) (ls : list string) :
  P LF = true -> (forall l, In l ls -> all_chars P l = true) ->
  all_chars P (join_lines ls) = true.
Proof.
  intros HP. induction ls as [|l ls IH]; intros H; [reflexivity|].
  destruct ls as [|l2 ls].
  - apply H. simpl; auto.
  - change (join_lines (l :: l2 :: ls))
      with (l ++ String LF (join_lines (l2 :: ls))).
    rewrite all_chars_append, H by (simpl; auto).
    cbn [all_chars andb]. rewrite HP. cbn [andb].
    apply IH. intros x Hx. apply H. simpl; auto.
Qed.

Lemma filter_all {A : Type} (f : A -> bool) (l : list A) :
  (forall x, In x l -> f x = true) -> filter f l = l.
Proof.
  induction l as [|a l IH]; intros H; simpl; [reflexivity|].
  rewrite H by (simpl; auto). rewrite IH; [reflexivity|].
  intros x Hx. apply H. simpl; auto.
Qed.

Lemma map_fixed {A : Type} (f : A -> A) (l : list A) :
  (forall x, In x l -> f x = x) -> map f l = l.
Proof.
  induction l as [|a l IH]; intros H; simpl; [reflexivity|].
  rewrite H by (simpl; auto). rewrite IH; [reflexivity|].
  intros x Hx. apply H. simpl; auto.
Qed.

(** The lines that [clean_lines] keeps are stripped, non-empty and without
    newline. *)
Lemma kept_line (text l : string) :
  In l (filter nonempty (map strip (split_lines text))) ->
  nonempty l = true /\ strip l = l /\ no_LF l = true.
Proof.
  intros H. apply filter_In in H. destruct H as [H Hn].
  apply in_map_iff in H. destruct H as (x & <- & Hx).
  split; [exact Hn|]. split; [apply strip_idempotent|].
  apply strip_all. eapply split_lines_no_LF; eauto.
Qed.

Lemma clean_lines_idempotent (text : string) :
  clean_lines (clean_lines text) = clean_lines text.
Proof.
  unfold clean_lines at 2 3.
  pose proof (kept_line text) as Hk.
  destruct (filter nonempty (map strip (split_lines text))) as [|l ls] eqn:E;
    [reflexivity|].
  unfold clean_lines. rewrite split_join_lines;
    [|discriminate | intros x Hx; now apply Hk].
  rewrite map_fixed by (intros x Hx; now apply Hk).
  rewrite filter_all by (intros x Hx; now apply Hk). reflexivity.
Qed.

Lemma clean_lines_all (P : ascii -> bool) (text : string) :
  P LF = true -> all_chars P text = true -> all_chars P (clean_lines text) = true.
Proof.
  intros HP Ht. unfold clean_lines. apply join_lines_all; [exact HP|].
  intros l Hl. apply filter_In in Hl. destruct Hl as [Hl _].
  apply in_map_iff in Hl. destruct Hl as (x & <- & Hx).
  apply strip_all. eapply split_lines_all; eauto.
Qed.

Lemma space2_LF (c : ascii) : space2 c LF = false.
Proof. unfold space2. change (code LF) with 10%N. bools_goal. right. lia. Qed.

Lemma space3_LF_2 (c e : ascii) : space3 c LF e = false.
Proof. unfold space3. change (code LF) with 10%N. bools_goal. lia. Qed.

Lemma space3_LF_3 (c d : ascii) : space3 c d LF = false.
Proof. unfold space3. change (code LF) with 10%N. bools_goal. lia. Qed.

(** A stripped line followed by a newline still starts with no whitespace. *)
Lemma stripped_then_LF (l rest : string) :
  space_prefix l = None -> l <> "" ->
  space_prefix (l ++ String LF rest) = None.
Proof.
  intros H Hl. destruct l as [|c [|d [|e l3]]]; [congruence| | |];
    simpl append; unfold space_prefix in *;
    (destruct (ascii_space c); [discriminate|]).
  - rewrite space2_LF. destruct rest; [reflexivity|]. now rewrite space3_LF_2.
  - destruct (space2 c d); [discriminate|]. now rewrite space3_LF_3.
  - destruct (space2 c d); [discriminate|].
    destruct (space3 c d e); [discriminate | reflexivity].
Qed.

Lemma nonempty_spec (s : string) : nonempty s = true <-> s <> "".
Proof.
  unfold nonempty. rewrite negb_true_iff. apply String.eqb_neq.
Qed.

Lemma clean_lines_not_blank (text : string) :
  clean_lines text <> "" -> blank (clean_lines text) = false.
Proof.
  unfold clean_lines. pose proof (kept_line text) as Hk.
  destruct (filter nonempty (map strip (split_lines text))) as [|l ls];
    [intros H; exfalso; apply H; reflexivity|].
  destruct (Hk l (or_introl eq_refl)) as (Hn & Hs & _).
  apply nonempty_spec in Hn.
  assert (Hp : space_prefix l = None) by (rewrite <- Hs; apply strip_stripped).
  intros _. destruct ls as [|l2 ls].
  - simpl. rewrite blank_fixed by exact Hp. now apply String.eqb_neq.
  - change (join_lines (l :: l2 :: ls))
      with (l ++ String LF (join_lines (l2 :: ls))).
    rewrite blank_fixed by now apply stripped_then_LF.
    apply String.eqb_neq. destruct l; [congruence | discriminate].
Qed.

(** ** Normalizer: idempotence *)

Lemma flatten_text (x : string) : flatten [NavigableString x] = x.
Proof. reflexivity. Qed.

Lemma blank_false_nonempty (x : string) : blank x = false -> x <> "".
Proof. intros H ->. discriminate. Qed.

Section Idempotence.

Variable BeautifulSoup : json -> outcome soup.

(** Text without markup that is not blank is parsed as one text node. *)
Hypothesis parse_plain :
  forall x, markup_free x = true -> blank x = false ->
            BeautifulSoup (JStr x) = Return [NavigableString x].

Lemma strip_html_plain (x : string) :
  markup_free x = true -> x = "" \/ blank x = false ->
  _strip_html BeautifulSoup (JStr x) = Return (clean_lines x).
Proof using parse_plain.
  intros Hm [->|Hb]; [reflexivity|].
  unfold _strip_html. simpl truthy.
  apply blank_false_nonempty in Hb as Hx. apply String.eqb_neq in Hx.
  rewrite Hx. simpl negb. cbv iota.
  now rewrite parse_plain, flatten_text.
Qed.

Lemma strip_html_output (h : json) (x : string) :
  _strip_html BeautifulSoup h = Return x -> x = "" \/ blank x = false.
Proof.
  unfold _strip_html. destruct (negb (truthy h)).
  - intros H. inversion H. auto.
  - destruct (BeautifulSoup h) as [t|e]; [|discriminate].
    intros H. inversion H.
    destruct (String.eqb (clean_lines (flatten t)) "") eqn:E.
    + apply String.eqb_eq in E. auto.
    + apply String.eqb_neq in E. right. now apply clean_lines_not_blank.
Qed.

Lemma strip_html_output_clean (h : json) (x : string) :
  _strip_html BeautifulSoup h = Return x -> clean_lines x = x.
Proof.
  unfold _strip_html. destruct (negb (truthy h)).
  - intros H. inversion H. reflexivity.
  - destruct (BeautifulSoup h) as [t|e]; [|discriminate].
    intros H. inversion H. apply clean_lines_idempotent.
Qed.

(** C9: a result of the normalizer that holds no markup is left as it is
    by the normalizer; on text without markup the normalizer gives a text
    that it leaves as it is; and equal inputs give equal results. *)
Theorem C9_strip_html_idempotent :
  (forall h x,
      _strip_html BeautifulSoup h = Return x -> markup_free x = true ->
      _strip_html BeautifulSoup (JStr x) = Return x)
  /\ (forall x,
        markup_free x = true -> blank x = false ->
        exists y, _strip_html BeautifulSoup (JStr x) = Return y
                  /\ _strip_html BeautifulSoup (JStr y) = Return y)
  /\ (forall h h', h = h' -> _strip_html BeautifulSoup h = _strip_html BeautifulSoup h').
Proof using parse_plain.
  split; [|split].
  - intros h x H Hm.
    rewrite strip_html_plain by (trivial; eapply strip_html_output; eauto).
    f_equal. eapply strip_html_output_clean; eauto.
  - intros x Hm Hb. exists (clean_lines x).
    assert (H : _strip_html BeautifulSoup (JStr x) = Return (clean_lines x))
      by (apply strip_html_plain; auto).
    split; [exact H|].
    rewrite strip_html_plain.
    + f_equal. apply clean_lines_idempotent.
    + apply clean_lines_all; [reflexivity | exact Hm].
    + eapply strip_html_output; eauto.
  - intros h h' ->. reflexivity.
Qed.

End Idempotence.

(** The reference parser reads text without markup as one text node. *)
Lemma lex_plain (acc x : string) :
  markup_free x = true ->
  RefParser.lex false acc x = RefParser.text_token (acc ++ x).
Proof.
  unfold markup_free. revert acc. induction x as [|c x IH]; intros acc; simpl.
  - intros _. now rewrite append_empty_r.
  - intros H. bools H. destruct H as [Hc Hx].
    unfold markup_char in Hc. apply negb_true_iff in Hc. bools Hc.
    destruct Hc as [Hc _]. unfold RefParser.LT. rewrite Hc, (IH _ Hx).
    f_equal. clear. induction acc as [|a acc IHa]; simpl; [reflexivity|].
    now rewrite IHa.
Qed.

Lemma ref_parser_plain (x : string) :
  markup_free x = true -> blank x = false ->
  RefParser.BeautifulSoup (JStr x) = Return [NavigableString x].
Proof.
  intros Hm Hb. unfold RefParser.BeautifulSoup, RefParser.parse.
  rewrite lex_plain by exact Hm. simpl append. unfold RefParser.text_token.
  apply blank_false_nonempty, nonempty_spec in Hb. rewrite Hb. reflexivity.
Qed.

Lemma C9_strip_html_idempotent_witness :
  _strip_html RefParser.BeautifulSoup (JStr hello_world_html)
  = Return ("Hello" ++ newline ++ "World")
  /\ _strip_html RefParser.BeautifulSoup (JStr ("Hello" ++ newline ++ "World"))
     = Return ("Hello" ++ newline ++ "World").
Proof.
  split; [reflexivity|].
  destruct (C9_strip_html_idempotent RefParser.BeautifulSoup ref_parser_plain)
    as [H _].
  apply (H (JStr hello_world_html)); reflexivity.
Defined.

(** ** The tree passes as one traversal *)

Lemma append_assoc (a b c : string) : (a ++ b) ++ c = a ++ (b ++ c).
Proof. induction a as [|x a IH]; simpl; [reflexivity | now rewrite IH]. Qed.

Lemma concat_cons (x : string) (xs : list string) :
  String.concat "" (x :: xs) = x ++ String.concat "" xs.
Proof.
  destruct xs as [|y ys]; simpl; [now rewrite append_empty_r | reflexivity].
Qed.

Lemma concat_app (xs ys : list string) :
  String.concat "" (xs ++ ys) = String.concat "" xs ++ String.concat "" ys.
Proof.
  induction xs as [|x xs IH]; [reflexivity|].
  change ((x :: xs) ++ ys)%list with (x :: (xs ++ ys)%list).
  now rewrite !concat_cons, IH, append_assoc.
Qed.

Lemma flatten_app (a b : soup) : flatten (a ++ b)%list = flatten a ++ flatten b.
Proof.
  unfold flatten, soup_text.
  now rewrite !flat_map_app, map_app, flat_map_app, map_app, concat_app.
Qed.

Lemma flatten_cons (e : PageElement) (r : soup) :
  flatten (e :: r) = flatten [e] ++ flatten r.
Proof. apply (flatten_app [e] r). Qed.

Lemma flat_map_one {A B : Type} (f : A -> list B) (x : A) : flat_map f [x] = f x.
Proof. simpl. apply app_nil_r. Qed.

Lemma decompose_tag (name cls n : string) (a : list (string * string)) (c : soup) :
  decompose name cls (Tag n a c) =
  if String.eqb n name && has_class cls a then []
  else [Tag n a (flat_map (decompose name cls) c)].
Proof. reflexivity. Qed.

Lemma replace_br_tag (n : string) (a : list (string * string)) (c : soup) :
  replace_br (Tag n a c) =
  if String.eqb n "br" then NavigableString newline else Tag n a (map replace_br c).
Proof. reflexivity. Qed.

Lemma insert_after_p_tag (n : string) (a : list (string * string)) (c : soup) :
  insert_after_p (Tag n a c) =
  if String.eqb n "p"
  then [Tag n a (flat_map insert_after_p c); NavigableString newline]
  else [Tag n a (flat_map insert_after_p c)].
Proof. reflexivity. Qed.

Lemma flatten_tag (n : string) (a : list (string * string)) (c : soup) :
  flatten [Tag n a c] =
  if String.eqb n "div" && has_class "audio" a then ""
  else if String.eqb n "dl" && has_class "footnote" a then ""
  else if String.eqb n "br" then newline
  else flatten c ++ (if String.eqb n "p" then newline else "").
Proof.
  unfold flatten, soup_text. rewrite flat_map_one, decompose_tag.
  destruct (String.eqb n "div" && has_class "audio" a); [reflexivity|].
  rewrite flat_map_one, decompose_tag.
  destruct (String.eqb n "dl" && has_class "footnote" a); [reflexivity|].
  change (map replace_br [?x]) with [replace_br x]. rewrite replace_br_tag.
  destruct (String.eqb n "br"); [reflexivity|].
  rewrite flat_map_one, insert_after_p_tag.
  destruct (String.eqb n "p").
  - change (map get_text [?x; ?y]) with [get_text x; get_text y].
    rewrite !concat_cons. reflexivity.
  - change (map get_text [?x]) with [get_text x].
    rewrite concat_cons. reflexivity.
Qed.

Lemma flatten_element (e : PageElement) : flatten [e] = text_of e.
Proof.
  induction e as [s|s|n a c IH] using PageElement_forest_ind;
    [reflexivity | reflexivity |].
  rewrite flatten_tag. cbn [text_of].
  replace (String.concat "" (map text_of c)) with (flatten c); [reflexivity|].
  induction IH as [|x r Hx _ IHr]; [reflexivity|].
  now rewrite flatten_cons, Hx, IHr, map_cons, concat_cons.
Qed.

Lemma flatten_text_of (t : soup) : flatten t = String.concat "" (map text_of t).
Proof.
  induction t as [|e r IH]; [reflexivity|].
  now rewrite flatten_cons, flatten_element, IH, map_cons, concat_cons.
Qed.

(** The four passes over the tree, removing audio divs, removing footnote
    lists, replacing line breaks and marking the end of paragraphs, then
    reading the text, collect what one traversal of the parsed tree
    collects. *)
Theorem flatten_one_traversal (t : soup) :
  flatten t = String.concat "" (map text_of t).
Proof. apply flatten_text_of. Qed.



(** ** What the line clean-up leaves *)

Lemma clean_lines_split (text : string) :
  clean_lines text <> "" ->
  split_lines (clean_lines text)
  = filter nonempty (map strip (split_lines text)).
Proof.
  unfold clean_lines. pose proof (kept_line text) as Hk.
  destruct (filter nonempty (map strip (split_lines text))) as [|l ls];
    [intros H; exfalso; apply H; reflexivity|].
  intros _. apply split_join_lines; [discriminate|].
  intros x Hx. now apply Hk.
Qed.

Lemma join_split_lines (s : string) : join_lines (split_lines s) = s.
Proof.
  induction s as [|c r IH]; [reflexivity|]. simpl.
  pose proof (split_lines_not_nil r) as Hn.
  destruct (Ascii.eqb c LF) eqn:Ec.
  - apply Ascii.eqb_eq in Ec. subst c.
    destruct (split_lines r) as [|l0 ls]; [congruence|].
    change (join_lines ("" :: l0 :: ls)) with (String LF (join_lines (l0 :: ls))).
    now rewrite IH.
  - destruct (split_lines r) as [|l0 ls]; [congruence|].
    destruct ls as [|l1 ls].
    + simpl in *. now rewrite IH.
    + change (join_lines (String c l0 :: l1 :: ls))
        with (String c (l0 ++ String LF (join_lines (l1 :: ls)))).
      change (join_lines (l0 :: l1 :: ls))
        with (l0 ++ String LF (join_lines (l1 :: ls))) in IH.
      now rewrite IH.
Qed.

(** Whatever the parser made of the input, the text returned by
    [_strip_html] is empty or starts with no whitespace and has no empty
    line and no line with whitespace at either end. *)
Theorem strip_html_lines_clean (BeautifulSoup : json -> outcome soup)
        (html_content : json) (x : string) :
  _strip_html BeautifulSoup html_content = Return x ->
  x = ""
  \/ (blank x = false
      /\ forall l, In l (split_lines x) ->
                   l <> "" /\ strip l = l /\ no_LF l = true).
Proof.
  unfold _strip_html. destruct (negb (truthy html_content)).
  - intros H. inversion H. auto.
  - destruct (BeautifulSoup html_content) as [t|e]; [|discriminate].
    intros H. inversion H as [Hx]. clear H.
    destruct (String.eqb (clean_lines (flatten t)) "") eqn:E.
    + apply String.eqb_eq in E. auto.
    + apply String.eqb_neq in E. right.
      split; [now apply clean_lines_not_blank|].
      intros l. rewrite clean_lines_split by exact E. intros Hl.
      apply kept_line in Hl. destruct Hl as (Hn & Hs & Hf).
      apply nonempty_spec in Hn. auto.
Qed.

Lemma strip_html_lines_clean_witness :
  blank ("Hello" ++ newline ++ "World") = false
  /\ forall l, In l (split_lines ("Hello" ++ newline ++ "World")) ->
               l <> "" /\ strip l = l /\ no_LF l = true.
Proof.
  destruct (strip_html_lines_clean RefParser.BeautifulSoup (JStr hello_world_html)
              ("Hello" ++ newline ++ "World") eq_refl) as [H|H].
  - discriminate.
  - exact H.
Defined.

(** The line clean-up leaves a text as it is exactly when the text is empty
    or has no empty line and no line with whitespace at either end. *)
Theorem clean_lines_fixed_iff (text : string) :
  clean_lines text = text <->
  text = "" \/ (forall l, In l (split_lines text) -> l <> "" /\ strip l = l).
Proof.
  split.
  - intros H. destruct (String.eqb text "") eqn:E.
    + apply String.eqb_eq in E. auto.
    + apply String.eqb_neq in E. right. intros l.
      rewrite <- H at 1. rewrite clean_lines_split by congruence. intros Hl.
      apply kept_line in Hl. destruct Hl as (Hn & Hs & _).
      apply nonempty_spec in Hn. auto.
  - intros [->|H]; [reflexivity|]. unfold clean_lines.
    rewrite map_fixed by (intros l Hl; now apply H).
    rewrite filter_all; [apply join_split_lines|].
    intros l Hl. apply nonempty_spec. now apply H.
Qed.

(** ** Blank text *)

Lemma not_LF_of_code (d : ascii) : code d <> 10%N -> Ascii.eqb d LF = false.
Proof.
  intros H. destruct (Ascii.eqb d LF) eqn:E; [|reflexivity].
  apply Ascii.eqb_eq in E. subst d. now elim H.
Qed.

(** A leading whitespace code point is the newline or holds none. *)
Lemma space_prefix_chunk (s r : string) :
  space_prefix s = Some r ->
  exists w, s = w ++ r
            /\ (forall x, space_prefix (w ++ x) = Some x)
            /\ (w = newline \/ no_LF w = true).
Proof.
  destruct s as [|c s1]; [discriminate|]. unfold space_prefix at 1.
  destruct (ascii_space c) eqn:A.
  - intros H. inversion H; subst s1. exists (String c ""). split; [reflexivity|].
    split.
    + intros x. simpl. now rewrite A.
    + destruct (Ascii.eqb c LF) eqn:E.
      * apply Ascii.eqb_eq in E. subst c. now left.
      * right. unfold no_LF. simpl. now rewrite E.
  - assert (Hc : Ascii.eqb c LF = false).
    { destruct (Ascii.eqb c LF) eqn:E; [|reflexivity].
      apply Ascii.eqb_eq in E. subst c. discriminate. }
    destruct s1 as [|d s2]; [discriminate|].
    destruct (space2 c d) eqn:B.
    + intros H. inversion H; subst s2.
      exists (String c (String d "")). split; [reflexivity|]. split.
      * intros x. simpl. now rewrite A, B.
      * right. unfold no_LF. simpl. rewrite Hc.
        apply space2_continuation in B. rewrite not_LF_of_code by lia. reflexivity.
    + destruct s2 as [|e s3]; [discriminate|].
      destruct (space3 c d e) eqn:C; [|discriminate].
      intros H. inversion H; subst s3.
      exists (String c (String d (String e ""))). split; [reflexivity|]. split.
      * intros x. simpl. now rewrite A, B, C.
      * right. unfold no_LF. simpl. rewrite Hc.
        apply space3_continuation in C.
        rewrite !not_LF_of_code by lia. reflexivity.
Qed.

Lemma blank_cases (s : string) :
  blank s = true -> s = "" \/ exists r, space_prefix s = Some r /\ blank r = true.
Proof.
  intros Hb. destruct (space_prefix s) as [r|] eqn:E.
  - right. exists r. split; [reflexivity|]. now rewrite <- (blank_step _ _ E).
  - left. rewrite blank_fixed in Hb by exact E. now apply String.eqb_eq.
Qed.

Lemma lstrip_blank_append (a b : string) :
  blank a = true -> lstrip (a ++ b) = lstrip b.
Proof.
  remember (String.length a) as n eqn:Hn.
  assert (Hle : String.length a <= n) by lia. clear Hn.
  revert a Hle. induction n as [|n IH]; intros a Hle Hb.
  - destruct a; [reflexivity | simpl in Hle; lia].
  - destruct (blank_cases a Hb) as [->|(r & E & Hr)]; [reflexivity|].
    destruct (space_prefix_chunk _ _ E) as (w & -> & Hw & _).
    rewrite append_assoc, (lstrip_step _ _ (Hw (r ++ b))).
    apply IH; [|exact Hr]. apply space_prefix_shorter in E. lia.
Qed.

Lemma blank_append (a b : string) :
  blank a = true -> blank b = true -> blank (a ++ b) = true.
Proof. intros Ha Hb. unfold blank in *. now rewrite lstrip_blank_append. Qed.

Lemma split_lines_prepend (w r : string) :
  no_LF w = true ->
  split_lines (w ++ r)
  = match split_lines r with
    | l0 :: ls => (w ++ l0) :: ls
    | [] => [w]
    end.
Proof.
  unfold no_LF. induction w as [|c w IH]; simpl.
  - intros _. pose proof (split_lines_not_nil r).
    destruct (split_lines r); [congruence | reflexivity].
  - intros H. bools H. destruct H as [Hc Hw]. apply negb_true_iff in Hc.
    rewrite Hc, (IH Hw). pose proof (split_lines_not_nil r).
    destruct (split_lines r); [congruence | reflexivity].
Qed.

Lemma blank_lines (text l : string) :
  blank text = true -> In l (split_lines text) -> blank l = true.
Proof.
  remember (String.length text) as n eqn:Hn.
  assert (Hle : String.length text <= n) by lia. clear Hn.
  revert text l Hle. induction n as [|n IH]; intros text l Hle Hb Hl.
  - destruct text; [|simpl in Hle; lia]. destruct Hl as [<-|[]]. reflexivity.
  - destruct (blank_cases text Hb) as [->|(r & E & Hr)].
    { destruct Hl as [<-|[]]. reflexivity. }
    assert (Hlen : String.length r <= n)
      by (apply space_prefix_shorter in E; lia).
    destruct (space_prefix_chunk _ _ E) as (w & -> & Hw & [->|Hf]).
    + simpl in Hl. destruct Hl as [<-|Hl]; [reflexivity | eauto].
    + rewrite split_lines_prepend in Hl by exact Hf.
      pose proof (split_lines_not_nil r) as Hne.
      destruct (split_lines r) as [|l0 ls] eqn:Er; [congruence|].
      destruct Hl as [<-|Hl].
      * rewrite (blank_step _ _ (Hw l0)).
        apply (IH r); [exact Hlen | exact Hr | rewrite Er; simpl; auto].
      * apply (IH r); [exact Hlen | exact Hr | rewrite Er; simpl; auto].
Qed.

Lemma filter_none {A : Type} (f : A -> bool) (l : list A) :
  (forall x, In x l -> f x = false) -> filter f l = [].
Proof.
  induction l as [|a l IH]; intros H; simpl; [reflexivity|].
  rewrite H by (simpl; auto). apply IH. intros x Hx. apply H. simpl; auto.
Qed.

Lemma clean_lines_blank (text : string) : blank text = true -> clean_lines text = "".
Proof.
  intros Hb. unfold clean_lines. rewrite filter_none; [reflexivity|].
  intros x Hx. apply in_map_iff in Hx. destruct Hx as (l & <- & Hl).
  apply (blank_lines _ _ Hb) in Hl. unfold blank in Hl.
  apply String.eqb_eq in Hl. unfold strip. now rewrite Hl.
Qed.

Lemma text_of_blank (e : PageElement) :
  blank_texts e = true -> blank (text_of e) = true.
Proof.
  induction e as [s|s|n a c IH] using PageElement_forest_ind;
    [trivial | reflexivity |].
  cbn [blank_texts text_of]. intros Hc.
  destruct (String.eqb n "div" && has_class "audio" a); [reflexivity|].
  destruct (String.eqb n "dl" && has_class "footnote" a); [reflexivity|].
  destruct (String.eqb n "br"); [reflexivity|].
  apply blank_append; [|destruct (String.eqb n "p"); reflexivity].
  induction IH as [|x r Hx _ IHr]; [reflexivity|].
  simpl in Hc. bools Hc. destruct Hc as [Hc1 Hc2].
  rewrite map_cons, concat_cons. apply blank_append; auto.
Qed.

(** A document whose text nodes are all blank, whatever its tags, is
    normalized to the empty string. *)
Theorem strip_html_blank_nodes (BeautifulSoup : json -> outcome soup)
        (html_content : json) (t : soup) :
  BeautifulSoup html_content = Return t ->
  forallb blank_texts t = true ->
  _strip_html BeautifulSoup html_content = Return "".
Proof.
  intros Hp Hb. unfold _strip_html.
  destruct (negb (truthy html_content)); [reflexivity|]. rewrite Hp. f_equal.
  apply clean_lines_blank. rewrite flatten_text_of. clear Hp.
  induction t as [|e r IH]; [reflexivity|].
  simpl in Hb. bools Hb. destruct Hb as [He Hr].
  rewrite map_cons, concat_cons. apply blank_append; [|auto].
  now apply text_of_blank.
Qed.

Lemma strip_html_blank_nodes_witness :
  _strip_html RefParser.BeautifulSoup (JStr "<p> </p> <br><div><b>  </b></div>")
  = Return "".
Proof.
  apply (strip_html_blank_nodes RefParser.BeautifulSoup
           (JStr "<p> </p> <br><div><b>  </b></div>")
           (RefParser.parse "<p> </p> <br><div><b>  </b></div>"));
    reflexivity.
Defined.

(** ** Dicts and key sets *)

Lemma subsetb_spec (xs ys : list string) :
  subsetb xs ys = true <-> (forall x, In x xs -> In x ys).
Proof.
  unfold subsetb. rewrite forallb_forall. split; intros H x Hx.
  - apply H in Hx. apply existsb_exists in Hx. destruct Hx as (y & Hy & E).
    apply String.eqb_eq in E. now subst.
  - apply existsb_exists. exists x. split; [now apply H | apply String.eqb_refl].
Qed.

Lemma set_eqb_exact_keys (m : dict) :
  set_eqb (keys m) ["result"; "error"] = true <-> exact_keys m.
Proof.
  unfold set_eqb, exact_keys. rewrite andb_true_iff, !subsetb_spec. split.
  - intros [H1 H2] k. split.
    + intros Hk. apply H1 in Hk. simpl in Hk. intuition.
    + intros Hk. apply H2. simpl. intuition.
  - intros H. split; intros k Hk.
    + apply H in Hk. simpl. intuition.
    + apply H. simpl in Hk. intuition.
Qed.

Lemma lookup_in_keys (k : string) (m : dict) :
  In k (keys m) <-> exists v, lookup k m = Some v.
Proof.
  induction m as [|[k' v'] m IH]; simpl.
  - split; [tauto | intros [v H]; discriminate].
  - destruct (String.eqb k' k) eqn:E.
    + apply String.eqb_eq in E. split; [eauto | auto].
    + apply String.eqb_neq in E. rewrite <- IH. tauto.
Qed.

Lemma lookup_none_keys (k : string) (m : dict) :
  lookup k m = None <-> ~ In k (keys m).
Proof.
  rewrite lookup_in_keys. destruct (lookup k m) as [v|].
  - split; [discriminate | intros H; exfalso; eauto].
  - split; [intros _ [v H]; discriminate | reflexivity].
Qed.

Lemma is_none_spec (v : json) : is_none v = true <-> v = JNull.
Proof. destruct v; simpl; split; congruence. Qed.

Lemma valid_ease_spec (ease : Z) :
  valid_ease ease = true <-> In ease [1; 2; 3; 4]%Z.
Proof.
  unfold valid_ease. rewrite existsb_exists. split.
  - intros (x & Hx & E). apply Z.eqb_eq in E. now subst.
  - intros H. exists ease. split; [exact H | apply Z.eqb_refl].
Qed.

(** ** The client and the tools *)

Section ToolProofs.

Set Default Proof Using "Type".

Variable App : Type.
Variable urlopen : request -> App -> reply * App.
Variable py_repr : json -> string.
Variable BeautifulSoup : json -> outcome soup.

Local Abbreviation W := (World App).
Local Abbreviation send := (_request App urlopen py_repr).
Local Abbreviation current_card := (gui_current_card App urlopen py_repr anki).
Local Abbreviation show_answer := (gui_show_answer App urlopen py_repr anki).
Local Abbreviation answer_card := (gui_answer_card App urlopen py_repr anki).
Local Abbreviation card_info_now := (_get_current_card_info App urlopen py_repr BeautifulSoup).
Local Abbreviation start := (start_learning App urlopen py_repr BeautifulSoup).
Local Abbreviation answer_next := (answer_and_get_next_card App urlopen py_repr BeautifulSoup).
Local Abbreviation normalize := (_strip_html BeautifulSoup).

Lemma bind_return {A B : Type} (m : M App A) (k : A -> M App B) (w w' : W) (a : A) :
  m w = (Return a, w') -> bind App m k w = k a w'.
Proof. unfold bind. now intros ->. Qed.

Lemma bind_raise {A B : Type} (m : M App A) (k : A -> M App B) (w w' : W) (e : exn) :
  m w = (Raise e, w') -> bind App m k w = (Raise e, w').
Proof. unfold bind. now intros ->. Qed.

(** A request posts once, whatever comes back, and its outcome is read off
    the reply. *)
Lemma request_run (self : AnkiClient) (action : string) (params : json) (w : W)
      (rep : reply) (a : App) :
  urlopen (request_of self action params) (app w) = (rep, a) ->
  send self action params w =
  (match rep with
   | Unreachable => Raise (AnkiConnectError not_reachable)
   | Failure e => Raise e
   | Response response =>
       match py_keys response with
       | Raise e => Raise e
       | Return ks =>
           if negb (set_eqb ks ["result"; "error"]) then
             Raise (AnkiConnectError
                      ("Invalid response from Anki-Connect: " ++ py_repr response))
           else
             match py_getitem response "error" with
             | Raise e => Raise e
             | Return err =>
                 if negb (is_none err)
                 then Raise (AnkiConnectError (py_str py_repr err))
                 else py_getitem response "result"
             end
       end
   end, after_post w (request_of self action params) a).
Proof.
  intros H. unfold _request, bind, post. rewrite H.
  fold (after_post w (request_of self action params) a).
  destruct rep as [|e|response]; try reflexivity.
  unfold lift, raise. destruct (py_keys response) as [ks|e]; [|reflexivity].
  destruct (negb (set_eqb ks ["result"; "error"])); [reflexivity|].
  destruct (py_getitem response "error") as [err|e]; [|reflexivity].
  destruct (negb (is_none err)); reflexivity.
Qed.

Lemma request_world (self : AnkiClient) (action : string) (params : json) (w : W) :
  snd (send self action params w) =
  after_post w (request_of self action params)
             (snd (urlopen (request_of self action params) (app w))).
Proof.
  destruct (urlopen (request_of self action params) (app w)) as [rep a] eqn:E.
  now rewrite (request_run _ _ _ _ _ _ E).
Qed.

Lemma request_bad_keys (self : AnkiClient) (action : string) (params : json)
      (w : W) (m : dict) (a : App) :
  urlopen (request_of self action params) (app w) = (Response (JObj m), a) ->
  ~ exact_keys m ->
  exists msg,
    send self action params w =
    (Raise (AnkiConnectError msg), after_post w (request_of self action params) a).
Proof.
  intros H Hk. rewrite (request_run _ _ _ _ _ _ H). simpl py_keys. cbv iota.
  destruct (set_eqb (keys m) ["result"; "error"]) eqn:K.
  - apply set_eqb_exact_keys in K. contradiction.
  - simpl. eauto.
Qed.

Lemma request_error (self : AnkiClient) (action : string) (params : json)
      (w : W) (m : dict) (a : App) (err : json) :
  urlopen (request_of self action params) (app w) = (Response (JObj m), a) ->
  exact_keys m -> lookup "error" m = Some err -> err <> JNull ->
  send self action params w =
  (Raise (AnkiConnectError (py_str py_repr err)),
   after_post w (request_of self action params) a).
Proof.
  intros H Hk He Hn. rewrite (request_run _ _ _ _ _ _ H). simpl py_keys. cbv iota.
  apply set_eqb_exact_keys in Hk. rewrite Hk. simpl negb. cbv iota.
  unfold py_getitem. rewrite He.
  destruct (is_none err) eqn:N; [|reflexivity].
  apply is_none_spec in N. contradiction.
Qed.

(** C4: when the body of the response is a mapping, a key set other than
    [result], [error] raises with the payload in the message, a non-null
    [error] raises with the string of the error, and otherwise the value under
    [result] is returned; the request raises in these two cases only. *)
Theorem C4_request_envelope (self : AnkiClient) (action : string) (params : json)
        (w : W) (m : dict) (a : App) :
  urlopen (request_of self action params) (app w) = (Response (JObj m), a) ->
  let w' := after_post w (request_of self action params) a in
  (~ exact_keys m ->
   send self action params w =
   (Raise (AnkiConnectError
             ("Invalid response from Anki-Connect: " ++ py_repr (JObj m))), w'))
  /\ (exact_keys m ->
      exists err result,
        lookup "error" m = Some err /\ lookup "result" m = Some result
        /\ (err <> JNull ->
            send self action params w =
            (Raise (AnkiConnectError (py_str py_repr err)), w'))
        /\ (err = JNull -> send self action params w = (Return result, w')))
  /\ ((exists e, fst (send self action params w) = Raise e)
      <-> ~ exact_keys m \/ exists err, lookup "error" m = Some err /\ err <> JNull).
Proof.
  clear BeautifulSoup.
  intros H w'. rewrite (request_run _ _ _ _ _ _ H). fold w'. simpl py_keys.
  cbv iota.
  destruct (set_eqb (keys m) ["result"; "error"]) eqn:K; simpl negb; cbv iota.
  - apply set_eqb_exact_keys in K.
    assert (He : exists err, lookup "error" m = Some err)
      by (apply lookup_in_keys, K; auto).
    assert (Hr : exists result, lookup "result" m = Some result)
      by (apply lookup_in_keys, K; auto).
    destruct He as [err He], Hr as [result Hr].
    unfold py_getitem. rewrite He, Hr.
    split; [tauto|]. split.
    + intros _. exists err, result. repeat split; trivial.
      * intros Hn. destruct (is_none err) eqn:N; [|reflexivity].
        apply is_none_spec in N. contradiction.
      * intros ->. reflexivity.
    + destruct (is_none err) eqn:N; simpl.
      * apply is_none_spec in N. subst. split.
        -- intros [e He']. discriminate.
        -- intros [Hk | (err' & He' & Hn)]; [tauto|]. congruence.
      * split; [|eauto]. intros _. right. exists err. split; [reflexivity|].
        intros ->. discriminate.
  - assert (Hk : ~ exact_keys m).
    { intros Hk. apply set_eqb_exact_keys in Hk. congruence. }
    split; [reflexivity|]. split; [tauto|]. simpl. split; eauto.
Qed.

Lemma show_answer_world (w : W) :
  snd (show_answer w) =
  after_post w (request_of anki "guiShowAnswer" JNull)
             (snd (urlopen (request_of anki "guiShowAnswer" JNull) (app w))).
Proof.
  unfold gui_show_answer, bind. rewrite <- request_world.
  destruct (send anki "guiShowAnswer" JNull w) as [[r|e] w1]; reflexivity.
Qed.

Lemma answer_card_world (ease : Z) (w : W) :
  snd (answer_card ease w) =
  after_post w (request_of anki "guiAnswerCard" (JObj [("ease", JInt ease)]))
    (snd (urlopen (request_of anki "guiAnswerCard" (JObj [("ease", JInt ease)]))
                  (app w))).
Proof.
  unfold gui_answer_card, bind. rewrite <- request_world.
  destruct (send anki "guiAnswerCard" (JObj [("ease", JInt ease)]) w)
    as [[r|e] w1]; reflexivity.
Qed.

Lemma show_answer_return (w w' : W) (u : unit) :
  show_answer w = (Return u, w') -> show_answer w = (Return tt, w').
Proof. destruct u. trivial. Qed.

(** The body of [_get_current_card_info], step by step. *)
Lemma card_info_now_run (w : W) :
  card_info_now w =
  match current_card w with
  | (Raise e, w1) => (Raise e, w1)
  | (Return (JObj d), w1) =>
      match lookup "modelName" d with
      | None => (Raise (KeyError "modelName"), w1)
      | Some model_name =>
          match lookup "template" d with
          | None => (Raise (KeyError "template"), w1)
          | Some template =>
              match show_answer w1 with
              | (Raise e, w2) => (Raise e, w2)
              | (Return _, w2) =>
                  (match normalize (dict_get d "question" (JStr "")) with
                   | Raise e => Raise e
                   | Return q =>
                       match normalize (dict_get d "answer" (JStr "")) with
                       | Raise e => Raise e
                       | Return a =>
                           Return (card_info model_name template
                                             (dict_get d "deckName" (JStr ""))
                                             (_format_question model_name template q)
                                             a)
                       end
                   end, w2)
              end
          end
      end
  | (Return _, w1) => (Raise (AttributeError "object has no attribute 'get'"), w1)
  end.
Proof.
  unfold _get_current_card_info, bind at 1.
  destruct (current_card w) as [[card|e] w1]; [|reflexivity].
  destruct card as [| | | | | |d]; try reflexivity.
  unfold lift, bind, py_get, py_getitem, ret, dict_get, card_info.
  destruct (lookup "cardId" d); (destruct (lookup "modelName" d) as [m|]; [|reflexivity]);
    (destruct (lookup "template" d) as [t|]; [|reflexivity]);
    (destruct (show_answer w1) as [[u|e] w2]; [|reflexivity]);
    destruct (lookup "question" d), (lookup "deckName" d), (lookup "answer" d);
    repeat match goal with
           | |- context [_strip_html BeautifulSoup ?x] =>
               destruct (_strip_html BeautifulSoup x)
           end; reflexivity.
Qed.

(** The body of [answer_and_get_next_card], step by step. *)
Lemma answer_next_run (ease : Z) (w : W) :
  answer_next ease w =
  if negb (valid_ease ease) then (Raise (ValueError "ease must be 1-4"), w)
  else
    match answer_card ease w with
    | (Raise e, w1) => (Raise e, w1)
    | (Return _, w1) =>
        match card_info_now (after_sleep w1 1) with
        | (Raise (AnkiConnectError _), w3) => (Return deck_finished, w3)
        | r => r
        end
    end.
Proof.
  unfold answer_and_get_next_card.
  destruct (negb (valid_ease ease)); [reflexivity|].
  unfold bind at 1. destruct (answer_card ease w) as [[u|e] w1]; [|reflexivity].
  unfold bind, sleep, try_except_AnkiConnectError, ret. fold (after_sleep w1 1).
  destruct (card_info_now (after_sleep w1 1)) as [[v|e] w3]; [reflexivity|].
  destruct e; reflexivity.
Qed.

Lemma card_info_now_trace (w : W) :
  exists rest,
    trace (snd (card_info_now w)) =
    (trace w ++ Posted (request_of anki "guiCurrentCard" JNull) :: rest)%list.
Proof.
  rewrite card_info_now_run.
  pose proof (request_world anki "guiCurrentCard" JNull w) as Hw.
  change (send anki "guiCurrentCard" JNull w) with (current_card w) in Hw.
  destruct (current_card w) as [[card|e] w1]; simpl in Hw; subst w1.
  2:{ exists []. reflexivity. }
  destruct card as [| | | | | |d]; try (exists []; reflexivity).
  destruct (lookup "modelName" d); [|exists []; reflexivity].
  destruct (lookup "template" d); [|exists []; reflexivity].
  match goal with |- context [show_answer ?x] =>
    pose proof (show_answer_world x) as Hs; destruct (show_answer x) as [[u|e] w2]
  end; simpl in Hs; subst w2; simpl; rewrite <- app_assoc; simpl; eauto.
Qed.

(** C3: an ease outside 1..4 raises [ValueError] and leaves the world as it
    was, nothing posted; an ease in 1..4 passes the check and the first thing
    done is the post of [guiAnswerCard] carrying that ease. *)
Theorem C3_ease_validation (ease : Z) (w : W) :
  (~ In ease [1; 2; 3; 4]%Z ->
   answer_next ease w = (Raise (ValueError "ease must be 1-4"), w))
  /\ (In ease [1; 2; 3; 4]%Z ->
      data (request_of anki "guiAnswerCard" (JObj [("ease", JInt ease)]))
      = JObj [("action", JStr "guiAnswerCard"); ("version", JInt 6);
              ("params", JObj [("ease", JInt ease)])]
      /\ exists rest,
          trace (snd (answer_next ease w)) =
          (trace w
           ++ Posted (request_of anki "guiAnswerCard" (JObj [("ease", JInt ease)]))
           :: rest)%list).
Proof.
  rewrite answer_next_run. split; intros H.
  - destruct (valid_ease ease) eqn:E; [|reflexivity].
    apply valid_ease_spec in E. contradiction.
  - apply valid_ease_spec in H. rewrite H. simpl negb. cbv iota.
    split; [reflexivity|].
    pose proof (answer_card_world ease w) as Hw.
    destruct (answer_card ease w) as [[u|e] w1]; simpl in Hw.
    2:{ exists []. simpl. now rewrite Hw. }
    destruct (card_info_now_trace (after_sleep w1 1)) as [rest Hr].
    destruct (card_info_now (after_sleep w1 1)) as [[v|e] w3]; simpl in Hr.
    + simpl. rewrite Hr, Hw. simpl. rewrite <- !app_assoc. simpl. eauto.
    + destruct e; simpl; rewrite Hr, Hw; simpl; rewrite <- !app_assoc; simpl; eauto.
Qed.

Lemma current_card_world (w : W) :
  snd (current_card w) =
  after_post w (request_of anki "guiCurrentCard" JNull)
             (snd (urlopen (request_of anki "guiCurrentCard" JNull) (app w))).
Proof. apply request_world. Qed.

(** What a successful [_get_current_card_info] went through. *)
Lemma card_info_now_success (w w2 : W) (v : dict) :
  card_info_now w = (Return v, w2) ->
  exists d m t q a w1,
    current_card w = (Return (JObj d), w1)
    /\ show_answer w1 = (Return tt, w2)
    /\ lookup "modelName" d = Some m /\ lookup "template" d = Some t
    /\ normalize (dict_get d "question" (JStr "")) = Return q
    /\ normalize (dict_get d "answer" (JStr "")) = Return a
    /\ v = card_info m t (dict_get d "deckName" (JStr "")) (_format_question m t q) a.
Proof.
  rewrite card_info_now_run.
  destruct (current_card w) as [[card|e] w1] eqn:Hc; [|discriminate].
  destruct card as [| | | | | |d]; try discriminate.
  destruct (lookup "modelName" d) as [m|] eqn:Hm; [|discriminate].
  destruct (lookup "template" d) as [t|] eqn:Ht; [|discriminate].
  destruct (show_answer w1) as [[[]|e] w2'] eqn:Hs; [|discriminate].
  destruct (normalize (dict_get d "question" (JStr ""))) as [q|e] eqn:Hq;
    [|discriminate].
  destruct (normalize (dict_get d "answer" (JStr ""))) as [a|e] eqn:Ha;
    [|discriminate].
  intros H. inversion H; subst. exists d, m, t, q, a, w1. repeat split; trivial.
Qed.

(** C5: [start_learning] fetches the current card, then reveals the answer,
    then normalizes and formats, and returns a view with [success] true;
    a failure of the fetch or of the reveal reaches the caller as it is, and
    a failure of the normalizer comes after the reveal. *)
Theorem C5_start_learning_steps (w : W) :
  (forall e w1, current_card w = (Raise e, w1) -> start w = (Raise e, w1))
  /\ (forall d m t e w1 w2,
        current_card w = (Return (JObj d), w1) ->
        lookup "modelName" d = Some m -> lookup "template" d = Some t ->
        show_answer w1 = (Raise e, w2) -> start w = (Raise e, w2))
  /\ (forall d m t e w1 w2,
        current_card w = (Return (JObj d), w1) ->
        lookup "modelName" d = Some m -> lookup "template" d = Some t ->
        show_answer w1 = (Return tt, w2) ->
        normalize (dict_get d "question" (JStr "")) = Raise e ->
        start w = (Raise e, w2))
  /\ (forall v w2,
        start w = (Return v, w2) ->
        exists d m t q a w1,
          current_card w = (Return (JObj d), w1)
          /\ show_answer w1 = (Return tt, w2)
          /\ trace w2 =
             (trace w ++ [Posted (request_of anki "guiCurrentCard" JNull);
                          Posted (request_of anki "guiShowAnswer" JNull)])%list
          /\ lookup "modelName" d = Some m /\ lookup "template" d = Some t
          /\ normalize (dict_get d "question" (JStr "")) = Return q
          /\ normalize (dict_get d "answer" (JStr "")) = Return a
          /\ v = card_info m t (dict_get d "deckName" (JStr ""))
                           (_format_question m t q) a
          /\ lookup "success" v = Some (JBool true)).
Proof.
  unfold start_learning. repeat split.
  - intros e w1 H. rewrite card_info_now_run, H. reflexivity.
  - intros d m t e w1 w2 Hc Hm Ht Hs.
    rewrite card_info_now_run, Hc, Hm, Ht, Hs. reflexivity.
  - intros d m t e w1 w2 Hc Hm Ht Hs Hq.
    rewrite card_info_now_run, Hc, Hm, Ht, Hs, Hq. reflexivity.
  - intros v w2 H.
    destruct (card_info_now_success _ _ _ H) as (d & m & t & q & a & w1 & Hc & Hs & R).
    exists d, m, t, q, a, w1. split; [exact Hc|]. split; [exact Hs|].
    split.
    + pose proof (current_card_world w) as H1. rewrite Hc in H1. simpl in H1.
      pose proof (show_answer_world w1) as H2. rewrite Hs in H2. simpl in H2.
      rewrite H2, H1. simpl. rewrite <- app_assoc. reflexivity.
    + destruct R as (Hm & Ht & Hq & Ha & Hv). repeat split; trivial.
      subst v. reflexivity.
Qed.

(** C1, as the code has it: once the answer is in, every [AnkiConnectError]
    out of the re-fetch becomes the deck-finished dict, be it an unreachable
    service or a malformed envelope; an exception of another class goes to
    the caller as it is, and so does a card view. *)
Theorem C1_refetch_failures (ease : Z) (w w1 : W) :
  valid_ease ease = true ->
  answer_card ease w = (Return tt, w1) ->
  let w2 := after_sleep w1 1 in
  let fetch := request_of anki "guiCurrentCard" JNull in
  (forall msg w3,
      card_info_now w2 = (Raise (AnkiConnectError msg), w3) ->
      answer_next ease w = (Return deck_finished, w3))
  /\ (forall e w3,
        card_info_now w2 = (Raise e, w3) ->
        (forall msg, e <> AnkiConnectError msg) ->
        answer_next ease w = (Raise e, w3))
  /\ (forall v w3,
        card_info_now w2 = (Return v, w3) -> answer_next ease w = (Return v, w3))
  /\ (forall a,
        urlopen fetch (app w2) = (Unreachable, a) ->
        answer_next ease w = (Return deck_finished, after_post w2 fetch a))
  /\ (forall m a,
        urlopen fetch (app w2) = (Response (JObj m), a) -> ~ exact_keys m ->
        answer_next ease w = (Return deck_finished, after_post w2 fetch a))
  /\ (forall m a err,
        urlopen fetch (app w2) = (Response (JObj m), a) -> exact_keys m ->
        lookup "error" m = Some err -> err <> JNull ->
        answer_next ease w = (Return deck_finished, after_post w2 fetch a)).
Proof.
  intros He Ha w2 fetch. rewrite answer_next_run, He, Ha. simpl negb. cbv iota.
  fold w2. repeat split.
  - intros msg w3 ->. reflexivity.
  - intros e w3 -> Hn. destruct e; try reflexivity. now elim (Hn msg).
  - intros v w3 ->. reflexivity.
  - intros a H. rewrite card_info_now_run. unfold gui_current_card.
    rewrite (request_run _ _ _ _ _ _ H). reflexivity.
  - intros m a H Hk. rewrite card_info_now_run. unfold gui_current_card.
    destruct (request_bad_keys anki "guiCurrentCard" JNull w2 m a H Hk)
      as [msg ->]. reflexivity.
  - intros m a err H Hk Herr Hn. rewrite card_info_now_run. unfold gui_current_card.
    rewrite (request_error _ _ _ _ _ _ _ H Hk Herr Hn). reflexivity.
Qed.

(** C2, as the code has it: [modelName] and [template] are indexed, a card
    without one of them raises [KeyError] before the answer is revealed;
    [deckName], [question] and [answer] are read with the empty string as
    default, and a card that lacks them gives a view all the same. *)
Theorem C2_card_fields (w w1 : W) (d : dict) :
  current_card w = (Return (JObj d), w1) ->
  (lookup "modelName" d = None ->
   card_info_now w = (Raise (KeyError "modelName"), w1))
  /\ (lookup "modelName" d <> None -> lookup "template" d = None ->
      card_info_now w = (Raise (KeyError "template"), w1))
  /\ (forall k, lookup k d = None ->
                dict_get d k (JStr "") = JStr ""
                /\ normalize (dict_get d k (JStr "")) = Return "")
  /\ (forall m t w2 q a,
        lookup "modelName" d = Some m -> lookup "template" d = Some t ->
        show_answer w1 = (Return tt, w2) ->
        normalize (dict_get d "question" (JStr "")) = Return q ->
        normalize (dict_get d "answer" (JStr "")) = Return a ->
        card_info_now w =
        (Return (card_info m t (dict_get d "deckName" (JStr ""))
                           (_format_question m t q) a), w2)).
Proof.
  intros Hc. repeat split.
  - intros Hm. rewrite card_info_now_run, Hc, Hm. reflexivity.
  - intros Hm Ht. rewrite card_info_now_run, Hc, Ht.
    destruct (lookup "modelName" d); [reflexivity | congruence].
  - unfold dict_get. now rewrite H.
  - unfold dict_get. now rewrite H.
  - intros m t w2 q a Hm Ht Hs Hq Ha.
    rewrite card_info_now_run, Hc, Hm, Ht, Hs, Hq, Ha. reflexivity.
Qed.

(** C6, as the code has it: a card view has the keys [success],
    [model_name], [template], [deck_name], [question], [answer]; the
    deck-finished dict has [success], [deck_finished], [model_name],
    [deck_name], [question], [answer] and no [template]. *)
Theorem C6_result_keys (w : W) :
  (forall v w', start w = (Return v, w') -> keys v = card_keys)
  /\ (forall ease v w',
        answer_next ease w = (Return v, w') ->
        keys v = card_keys
        \/ (v = deck_finished /\ keys v = deck_finished_keys
            /\ lookup "template" v = None)).
Proof.
  split.
  - intros v w' H. apply card_info_now_success in H.
    destruct H as (d & m & t & q & a & w1 & _ & _ & _ & _ & _ & _ & ->).
    reflexivity.
  - intros ease v w'. rewrite answer_next_run.
    destruct (negb (valid_ease ease)); [discriminate|].
    destruct (answer_card ease w) as [[u|e] w1]; [|discriminate].
    destruct (card_info_now (after_sleep w1 1)) as [[v'|e] w3] eqn:Hi.
    + intros H. inversion H; subst. left.
      apply card_info_now_success in Hi.
      destruct Hi as (d & m & t & q & a & w1' & _ & _ & _ & _ & _ & _ & ->).
      reflexivity.
    + destruct e; try discriminate. intros H. inversion H; subst. right.
      repeat split.
Qed.

(** ** More on the client *)

Lemma request_raises_for_mapping (self : AnkiClient) (action : string) (params : json)
      (w : W) (m : dict) (a : App) :
  urlopen (request_of self action params) (app w) = (Response (JObj m), a) ->
  ((exists msg, fst (send self action params w) = Raise (AnkiConnectError msg))
   -> ~ exact_keys m \/ exists err, lookup "error" m = Some err /\ err <> JNull)
  /\ (~ exact_keys m \/ (exists err, lookup "error" m = Some err /\ err <> JNull)
      -> exists msg, fst (send self action params w) = Raise (AnkiConnectError msg)).
Proof.
  clear BeautifulSoup.
  intros E. rewrite (request_run _ _ _ _ _ _ E). simpl py_keys. cbv iota.
  destruct (set_eqb (keys m) ["result"; "error"]) eqn:K; simpl negb; cbv iota.
  - apply set_eqb_exact_keys in K. unfold py_getitem.
    destruct (lookup "error" m) as [err|] eqn:He.
    + destruct (is_none err) eqn:N; simpl.
      * apply is_none_spec in N. subst err. split.
        -- intros [msg H]. destruct (lookup "result" m); discriminate.
        -- intros [H|(err & H & Hn)]; [contradiction | congruence].
      * split; [|eauto]. intros _. right. exists err. split; [reflexivity|].
        intros ->. discriminate.
    + split.
      * intros [msg H]. discriminate.
      * intros [H|(err & H & _)]; [contradiction | discriminate].
  - split; [|simpl; eauto]. intros _. left. intros Hk.
    apply set_eqb_exact_keys in Hk. congruence.
Qed.

Lemma request_ok (self : AnkiClient) (action : string) (params : json)
      (w : W) (m : dict) (a : App) (r : json) :
  urlopen (request_of self action params) (app w) = (Response (JObj m), a) ->
  exact_keys m -> lookup "error" m = Some JNull -> lookup "result" m = Some r ->
  send self action params w = (Return r, after_post w (request_of self action params) a).
Proof.
  clear BeautifulSoup.
  intros H K He Hr. rewrite (request_run _ _ _ _ _ _ H).
  simpl py_keys. cbv iota. apply set_eqb_exact_keys in K. rewrite K.
  simpl negb. cbv iota. unfold py_getitem. rewrite He, Hr. reflexivity.
Qed.

(** A request returns exactly when the reply is a mapping with the keys
    [result] and [error] and a null [error]; what it returns is the value
    under [result], and the request has been posted. *)
Theorem request_returns_iff (self : AnkiClient) (action : string) (params : json)
        (w w' : W) (r : json) :
  send self action params w = (Return r, w') <->
  exists m a,
    urlopen (request_of self action params) (app w) = (Response (JObj m), a)
    /\ exact_keys m
    /\ lookup "error" m = Some JNull /\ lookup "result" m = Some r
    /\ w' = after_post w (request_of self action params) a.
Proof.
  clear BeautifulSoup.
  destruct (urlopen (request_of self action params) (app w)) as [rep a] eqn:E.
  rewrite (request_run _ _ _ _ _ _ E). split.
  - destruct rep as [|e|body]; try discriminate.
    destruct body as [| | | | | |m]; try discriminate. simpl py_keys. cbv iota.
    destruct (set_eqb (keys m) ["result"; "error"]) eqn:K; [|discriminate].
    apply set_eqb_exact_keys in K. simpl negb. cbv iota. unfold py_getitem.
    destruct (lookup "error" m) as [err|] eqn:He; [|discriminate].
    destruct (is_none err) eqn:N; [|discriminate].
    apply is_none_spec in N. subst err. simpl negb. cbv iota.
    destruct (lookup "result" m) as [res|] eqn:Hr; [|discriminate].
    intros H. inversion H; subst. exists m, a. auto.
  - intros (m & a' & H & K & He & Hr & ->). inversion H; subst.
    simpl py_keys. cbv iota. apply set_eqb_exact_keys in K. rewrite K.
    simpl negb. cbv iota. unfold py_getitem. rewrite He, Hr. reflexivity.
Qed.

(** A request raises [AnkiConnectError] exactly when the application is
    unreachable, when the transport itself raises one, or when the reply is
    a mapping with other keys than [result] and [error] or a non-null [error].
    A reply that is JSON but no mapping raises [AttributeError] instead. *)
Theorem request_anki_connect_error_iff (self : AnkiClient) (action : string)
        (params : json) (w : W) :
  let rep := fst (urlopen (request_of self action params) (app w)) in
  ((exists msg, fst (send self action params w) = Raise (AnkiConnectError msg))
   <-> rep = Unreachable
       \/ (exists msg, rep = Failure (AnkiConnectError msg))
       \/ (exists m, rep = Response (JObj m)
                     /\ (~ exact_keys m
                         \/ exists err, lookup "error" m = Some err /\ err <> JNull)))
  /\ (forall body, rep = Response body -> (forall m, body <> JObj m) ->
                   fst (send self action params w)
                   = Raise (AttributeError "object has no attribute 'keys'")).
Proof.
  clear BeautifulSoup.
  destruct (urlopen (request_of self action params) (app w)) as [rep a] eqn:E.
  simpl fst at 1 3. split.
  - destruct rep as [|e|body].
    + rewrite (request_run _ _ _ _ _ _ E). simpl. split; eauto.
    + rewrite (request_run _ _ _ _ _ _ E). simpl. split.
      * intros [msg H]. inversion H. eauto.
      * intros [H|[[msg H]|(m & H & _)]]; try discriminate. inversion H. eauto.
    + destruct body as [| | | | | |m];
        try (rewrite (request_run _ _ _ _ _ _ E); simpl; split;
             [ intros [msg H]; discriminate
             | intros [H|[[msg H]|(m & H & _)]]; discriminate ]).
      destruct (request_raises_for_mapping self action params w m a E) as [H1 H2].
      split.
      * intros H. right. right. exists m. split; [reflexivity|]. now apply H1.
      * intros [H|[[msg H]|(m' & H & Hm)]]; try discriminate.
        inversion H; subst m'. now apply H2.
  - intros body Hb Hn. inversion Hb; subst rep.
    rewrite (request_run _ _ _ _ _ _ E).
    destruct body as [| | | | | |m]; try reflexivity. now elim (Hn m).
Qed.

(** Whatever comes back, a request posts once, to the endpoint of the client,
    a body with [action], [version] 6 and [params], where [params] is the
    argument, or the empty dict when the argument is left out or empty. *)
Theorem request_posts_once (self : AnkiClient) (action : string) (params : json)
        (w : W) :
  trace (snd (send self action params w))
  = (trace w ++ [Posted (request_of self action params)])%list
  /\ url (request_of self action params) = endpoint self
  /\ data (request_of self action params)
     = JObj [("action", JStr action); ("version", JInt 6);
             ("params", if truthy params then params else JObj [])].
Proof.
  clear BeautifulSoup. rewrite request_world. repeat split.
Qed.

(** [cards_info] posts the ids under [cards], an empty list of ids
    included, and hands back the result of a well-formed reply. *)
Theorem cards_info_result (card_ids : list json) (w : W) (m : dict) (a : App)
        (r : json) :
  let req := request_of anki "cardsInfo" (JObj [("cards", JArr card_ids)]) in
  urlopen req (app w) = (Response (JObj m), a) ->
  exact_keys m -> lookup "error" m = Some JNull -> lookup "result" m = Some r ->
  cards_info App urlopen py_repr anki card_ids w = (Return r, after_post w req a)
  /\ data req = JObj [("action", JStr "cardsInfo"); ("version", JInt 6);
                      ("params", JObj [("cards", JArr card_ids)])].
Proof.
  clear BeautifulSoup. intros req H Hk He Hr. split; [|reflexivity].
  unfold cards_info. now apply (request_ok _ _ _ _ m).
Qed.

(** ** More on the tools *)

Lemma card_info_now_effects (w : W) :
  exists l,
    trace (snd (card_info_now w)) = (trace w ++ l)%list
    /\ (l = [Posted (request_of anki "guiCurrentCard" JNull)]
        \/ l = [Posted (request_of anki "guiCurrentCard" JNull);
                Posted (request_of anki "guiShowAnswer" JNull)])
    /\ (forall v, fst (card_info_now w) = Return v ->
                  l = [Posted (request_of anki "guiCurrentCard" JNull);
                       Posted (request_of anki "guiShowAnswer" JNull)]).
Proof.
  rewrite card_info_now_run.
  pose proof (current_card_world w) as Hw.
  destruct (current_card w) as [[card|e] w1]; simpl in Hw; subst w1.
  2:{ eexists. split; [reflexivity|]. split; [auto | discriminate]. }
  destruct card as [| | | | | |d];
    try (eexists; split; [reflexivity|]; split; [auto | discriminate]).
  destruct (lookup "modelName" d);
    [|eexists; split; [reflexivity|]; split; [auto | discriminate]].
  destruct (lookup "template" d);
    [|eexists; split; [reflexivity|]; split; [auto | discriminate]].
  match goal with |- context [show_answer ?x] =>
    pose proof (show_answer_world x) as Hs; destruct (show_answer x) as [[u|e] w2]
  end; simpl in Hs; subst w2; simpl; rewrite <- app_assoc; simpl;
    eexists; (split; [reflexivity|]); split; auto.
Qed.

(** [start_learning] posts the fetch, then at most the reveal, and nothing
    else: it neither answers a card nor sleeps; when it returns a view both
    have been posted. *)
Theorem start_learning_effects (w : W) :
  exists l,
    trace (snd (start w)) = (trace w ++ l)%list
    /\ (l = [Posted (request_of anki "guiCurrentCard" JNull)]
        \/ l = [Posted (request_of anki "guiCurrentCard" JNull);
                Posted (request_of anki "guiShowAnswer" JNull)])
    /\ (forall v, fst (start w) = Return v ->
                  l = [Posted (request_of anki "guiCurrentCard" JNull);
                       Posted (request_of anki "guiShowAnswer" JNull)]).
Proof. apply card_info_now_effects. Qed.

(** With a valid ease, [answer_and_get_next_card] posts the answer first;
    if that fails nothing else happens; otherwise it sleeps one second, once,
    posts the fetch and then at most the reveal. *)
Theorem answer_and_get_next_card_effects (ease : Z) (w : W) :
  valid_ease ease = true ->
  let answered :=
    Posted (request_of anki "guiAnswerCard" (JObj [("ease", JInt ease)])) in
  let fetched := Posted (request_of anki "guiCurrentCard" JNull) in
  let revealed := Posted (request_of anki "guiShowAnswer" JNull) in
  exists l,
    trace (snd (answer_next ease w)) = (trace w ++ l)%list
    /\ (l = [answered]
        \/ l = [answered; Slept 1; fetched]
        \/ l = [answered; Slept 1; fetched; revealed])
    /\ (forall e w1, answer_card ease w = (Raise e, w1) -> l = [answered])
    /\ (forall w1, answer_card ease w = (Return tt, w1) -> l <> [answered]).
Proof.
  intros Hv answered fetched revealed. rewrite answer_next_run, Hv.
  simpl negb. cbv iota.
  pose proof (answer_card_world ease w) as Hw.
  destruct (answer_card ease w) as [[u|e] w1]; simpl in Hw; subst w1.
  2:{ exists [answered]. simpl. split; [reflexivity|]. split; [auto|].
      split; [reflexivity | discriminate]. }
  match goal with |- context [card_info_now ?x] =>
    destruct (card_info_now_effects x) as (l & Hl & Hc & _);
    destruct (card_info_now x) as [[v|e] w3]
  end; simpl in Hl.
  - exists (answered :: Slept 1 :: l). simpl. rewrite Hl, <- !app_assoc. simpl.
    split; [reflexivity|]. split; [destruct Hc as [-> | ->]; auto|].
    split; discriminate.
  - exists (answered :: Slept 1 :: l). split.
    + destruct e; simpl; rewrite Hl, <- !app_assoc; reflexivity.
    + split; [destruct Hc as [-> | ->]; auto|]. split; discriminate.
Qed.

(** A failure of the answer itself is not turned into a finished deck:
    whatever [gui_answer_card] raises, an [AnkiConnectError] included,
    reaches the caller, and neither the sleep nor the fetch takes place. *)
Theorem answer_failure_propagates (ease : Z) (w w1 : W) (e : exn) :
  valid_ease ease = true ->
  answer_card ease w = (Raise e, w1) ->
  answer_next ease w = (Raise e, w1)
  /\ trace w1
     = (trace w
        ++ [Posted (request_of anki "guiAnswerCard" (JObj [("ease", JInt ease)]))])%list.
Proof.
  intros Hv Ha. rewrite answer_next_run, Hv, Ha. split; [reflexivity|].
  pose proof (answer_card_world ease w) as Hw. rewrite Ha in Hw. simpl in Hw.
  now subst w1.
Qed.

(** A current card that is no mapping, such as a null result, raises
    [AttributeError] before the answer is revealed; after an answer this is
    not reported as a finished deck either. *)
Theorem card_not_a_mapping (card : json) :
  (forall d, card <> JObj d) ->
  (forall w w1,
      current_card w = (Return card, w1) ->
      start w = (Raise (AttributeError "object has no attribute 'get'"), w1))
  /\ (forall ease w0 w1 w2,
        valid_ease ease = true ->
        answer_card ease w0 = (Return tt, w1) ->
        current_card (after_sleep w1 1) = (Return card, w2) ->
        answer_next ease w0
        = (Raise (AttributeError "object has no attribute 'get'"), w2)).
Proof.
  intros Hn.
  assert (H : forall w w1, current_card w = (Return card, w1) ->
                           card_info_now w
                           = (Raise (AttributeError "object has no attribute 'get'"), w1)).
  { intros w w1 Hc. rewrite card_info_now_run, Hc.
    destruct card as [| | | | | |d]; try reflexivity. now elim (Hn d). }
  split; [exact H|].
  intros ease w0 w1 w2 Hv Ha Hc. rewrite answer_next_run, Hv, Ha.
  simpl negb. cbv iota. rewrite (H _ _ Hc). reflexivity.
Qed.

(** With a valid ease and the answer accepted, the result carries the
    [deck_finished] flag exactly when the re-fetch raised
    [AnkiConnectError]: a card view never has the flag. *)
Theorem deck_finished_flag_iff (ease : Z) (w w1 : W) (v : dict) (w' : W) :
  valid_ease ease = true ->
  answer_card ease w = (Return tt, w1) ->
  answer_next ease w = (Return v, w') ->
  lookup "deck_finished" v = Some (JBool true)
  <-> exists msg w3,
      card_info_now (after_sleep w1 1) = (Raise (AnkiConnectError msg), w3).
Proof.
  intros Hv Ha. rewrite answer_next_run, Hv, Ha. simpl negb. cbv iota.
  destruct (card_info_now (after_sleep w1 1)) as [[v'|e] w3] eqn:Hi.
  - intros H. inversion H; subst. apply card_info_now_success in Hi.
    destruct Hi as (d & m & t & q & a & w1' & _ & _ & _ & _ & _ & _ & ->).
    split; [discriminate|]. intros (msg & w3 & H3). discriminate.
  - destruct e; try discriminate. intros H. inversion H; subst.
    split; [eauto | reflexivity].
Qed.

Lemma format_question_suffix (model_name template : json) (q : string) :
  exists suffix,
    _format_question model_name template q = q ++ suffix
    /\ (suffix = "" \/ suffix = prompt_card2 \/ suffix = prompt_card1).
Proof.
  clear. unfold _format_question.
  destruct (py_in model_name VOCAB_MODELS);
    [destruct (py_eq_str template "card2");
     [|destruct (py_eq_str template "card1")]|];
    [exists prompt_card2 | exists prompt_card1 | exists "" | exists ""];
    rewrite ?append_empty_r; auto.
Qed.

(** In a view returned by [start_learning] the answer is a text that the
    line clean-up leaves as it is, and the question is such a text followed
    by nothing or by one of the two prompts. *)
Theorem view_texts_clean (w w' : W) (v : dict) :
  start w = (Return v, w') ->
  exists q a suffix,
    lookup "question" v = Some (JStr (q ++ suffix))
    /\ lookup "answer" v = Some (JStr a)
    /\ clean_lines q = q /\ clean_lines a = a
    /\ (suffix = "" \/ suffix = prompt_card2 \/ suffix = prompt_card1).
Proof.
  intros H. apply card_info_now_success in H.
  destruct H as (d & m & t & q & a & w1 & _ & _ & _ & _ & Hq & Ha & ->).
  destruct (format_question_suffix m t q) as (suffix & Hf & Hs).
  exists q, a, suffix. simpl. rewrite Hf.
  repeat split; trivial; eapply strip_html_output_clean; eauto.
Qed.

End ToolProofs.

(** ** The theorems on concrete applications *)

Lemma C4_request_envelope_witness :
  fst (script_request anki "guiCurrentCard" JNull
         (fresh [Response (envelope (JInt 5))])) = Return (JInt 5)
  /\ fst (script_request anki "guiCurrentCard" JNull
            (fresh [Response (error_envelope "collection is not available")]))
     = Raise (AnkiConnectError "collection is not available")
  /\ fst (script_request anki "guiCurrentCard" JNull
            (fresh [Response (JObj [("result", JInt 5)])]))
     = Raise (AnkiConnectError "Invalid response from Anki-Connect: dict").
Proof.
  split; [|split].
  - destruct (C4_request_envelope Script play type_repr anki "guiCurrentCard" JNull
                (fresh [Response (envelope (JInt 5))])
                [("result", JInt 5); ("error", JNull)] [] eq_refl) as (_ & H & _).
    destruct H as (err & result & He & Hr & _ & H).
    + apply set_eqb_exact_keys. reflexivity.
    + inversion He; subst err. inversion Hr; subst result.
      unfold script_request. now rewrite (H eq_refl).
  - destruct (C4_request_envelope Script play type_repr anki "guiCurrentCard" JNull
                (fresh [Response (error_envelope "collection is not available")])
                [("result", JNull); ("error", JStr "collection is not available")]
                [] eq_refl) as (_ & H & _).
    destruct H as (err & result & He & Hr & H & _).
    + apply set_eqb_exact_keys. reflexivity.
    + inversion He; subst err.
      unfold script_request. rewrite H; [reflexivity | discriminate].
  - destruct (C4_request_envelope Script play type_repr anki "guiCurrentCard" JNull
                (fresh [Response (JObj [("result", JInt 5)])])
                [("result", JInt 5)] [] eq_refl) as (H & _).
    unfold script_request. rewrite H; [reflexivity|].
    intros K. apply set_eqb_exact_keys in K. discriminate.
Defined.

Lemma C3_ease_validation_witness :
  deck_answer_and_get_next_card 5 (fresh [apple_card])
  = (Raise (ValueError "ease must be 1-4"), fresh [apple_card])
  /\ exists rest,
      trace (snd (deck_answer_and_get_next_card 3 (fresh [apple_card])))
      = Posted (request_of anki "guiAnswerCard" (JObj [("ease", JInt 3)])) :: rest.
Proof.
  split.
  - apply (C3_ease_validation Deck review type_repr RefParser.BeautifulSoup 5).
    simpl. lia.
  - destruct (C3_ease_validation Deck review type_repr RefParser.BeautifulSoup 3
                (fresh [apple_card])) as [_ H].
    destruct H as [_ H]; [simpl; auto|]. exact H.
Defined.

Lemma C5_start_learning_steps_witness :
  exists w2,
    deck_start_learning (fresh [apple_card])
    = (Return (card_info (JStr "Vocabulary") (JStr "card1") (JStr "English")
                         "apple 是什么意思？" ("apple" ++ newline ++ "苹果")), w2)
    /\ trace w2 = [Posted (request_of anki "guiCurrentCard" JNull);
                   Posted (request_of anki "guiShowAnswer" JNull)].
Proof.
  destruct (C5_start_learning_steps Deck review type_repr RefParser.BeautifulSoup
              (fresh [apple_card])) as (_ & _ & _ & H).
  specialize (H _ _ eq_refl).
  destruct H as (d & m & t & q & a & w1 & _ & _ & Ht & _).
  eexists. split; [reflexivity | exact Ht].
Defined.

(** The claim C1 fails: the application is unreachable when the card is
    fetched again, and the tool answers that the deck is finished. *)
Lemma C1_outage_reported_as_deck_finished :
  let w := fresh outage_after_answer in
  let w2 := after_sleep (snd (gui_answer_card Script play type_repr anki 3 w)) 1 in
  fst (script_card_info w2) = Raise (AnkiConnectError not_reachable)
  /\ fst (script_answer_and_get_next_card 3 w) = Return deck_finished
  /\ fst (script_answer_and_get_next_card 3 w) <> Raise (AnkiConnectError not_reachable).
Proof. repeat split. discriminate. Qed.

Lemma C1_refetch_failures_witness :
  fst (script_answer_and_get_next_card 3 (fresh outage_after_answer))
  = Return deck_finished
  /\ fst (script_answer_and_get_next_card 3
            (fresh [Response (envelope (JBool true)); Response (envelope JNull)]))
     = Raise (AttributeError "object has no attribute 'get'").
Proof.
  split.
  - destruct (C1_refetch_failures Script play type_repr RefParser.BeautifulSoup 3
                (fresh outage_after_answer) _ eq_refl eq_refl)
      as (_ & _ & _ & H & _).
    unfold script_answer_and_get_next_card. now rewrite (H _ eq_refl).
  - destruct (C1_refetch_failures Script play type_repr RefParser.BeautifulSoup 3
                (fresh [Response (envelope (JBool true)); Response (envelope JNull)])
                _ eq_refl eq_refl)
      as (_ & H & _).
    unfold script_answer_and_get_next_card.
    rewrite (H (AttributeError "object has no attribute 'get'") _ eq_refl);
      [reflexivity | discriminate].
Defined.

(** The claim C2 fails: a card without [modelName] makes the tool raise. *)
Lemma C2_missing_model_name_raises :
  lookup "modelName"
         [("cardId", JInt 7); ("template", JStr "card1");
          ("deckName", JStr "English"); ("question", JStr "pear");
          ("answer", JStr "梨")] = None
  /\ nameless_card
     = JObj [("cardId", JInt 7); ("template", JStr "card1");
             ("deckName", JStr "English"); ("question", JStr "pear");
             ("answer", JStr "梨")]
  /\ fst (deck_start_learning (fresh [nameless_card])) = Raise (KeyError "modelName").
Proof. repeat split. Qed.

Lemma C2_card_fields_witness :
  fst (deck_start_learning (fresh [bare_card]))
  = Return (card_info (JStr "Basic") (JStr "card1") (JStr "") "" "")
  /\ fst (deck_start_learning (fresh [nameless_card])) = Raise (KeyError "modelName").
Proof.
  split.
  - destruct (C2_card_fields Deck review type_repr RefParser.BeautifulSoup
                (fresh [bare_card]) _
                [("modelName", JStr "Basic"); ("template", JStr "card1")] eq_refl)
      as (_ & _ & _ & H).
    unfold deck_start_learning, start_learning.
    now rewrite (H (JStr "Basic") (JStr "card1") _ "" "" eq_refl eq_refl eq_refl
                   eq_refl eq_refl).
  - destruct (C2_card_fields Deck review type_repr RefParser.BeautifulSoup
                (fresh [nameless_card]) _
                [("cardId", JInt 7); ("template", JStr "card1");
                 ("deckName", JStr "English"); ("question", JStr "pear");
                 ("answer", JStr "梨")] eq_refl)
      as (H & _).
    unfold deck_start_learning, start_learning. now rewrite (H eq_refl).
Defined.

(** The claim C6 fails: the result for a finished deck has no [template]. *)
Lemma C6_deck_finished_has_no_template :
  exists v,
    fst (deck_answer_and_get_next_card 3 (fresh [apple_card])) = Return v
    /\ ~ In "template" (keys v)
    /\ keys v <> card_keys.
Proof.
  exists deck_finished. split; [reflexivity|]. split.
  - simpl. intros H. repeat destruct H as [H|H]; try discriminate. exact H.
  - discriminate.
Qed.

Lemma C6_result_keys_witness :
  (exists v w', deck_start_learning (fresh [apple_card]) = (Return v, w')
                /\ keys v = card_keys)
  /\ (exists v w', deck_answer_and_get_next_card 3 (fresh [apple_card]) = (Return v, w')
                   /\ keys v = deck_finished_keys).
Proof.
  destruct (C6_result_keys Deck review type_repr RefParser.BeautifulSoup
              (fresh [apple_card])) as [Hs Ha].
  split.
  - eexists. eexists. split; [reflexivity|]. eapply Hs. reflexivity.
  - eexists. eexists. split; [reflexivity|].
    destruct (Ha 3%Z _ _ eq_refl) as [H | (_ & H & _)]; [discriminate | exact H].
Defined.

(** ** More runs on concrete applications *)

Lemma cards_info_result_witness :
  fst (cards_info Script play type_repr anki []
         (fresh [Response (envelope (JArr []))]))
  = Return (JArr [])
  /\ data (request_of anki "cardsInfo" (JObj [("cards", JArr [])]))
     = JObj [("action", JStr "cardsInfo"); ("version", JInt 6);
             ("params", JObj [("cards", JArr [])])].
Proof.
  destruct (cards_info_result Script play type_repr []
              (fresh [Response (envelope (JArr []))])
              [("result", JArr []); ("error", JNull)] [] (JArr []) eq_refl)
    as [H Hd]; try reflexivity.
  - apply set_eqb_exact_keys. reflexivity.
  - split; [now rewrite H | exact Hd].
Defined.

Lemma answer_and_get_next_card_effects_witness :
  exists l,
    trace (snd (deck_answer_and_get_next_card 3 (fresh [apple_card; bare_card]))) = l
    /\ (l = [Posted (request_of anki "guiAnswerCard" (JObj [("ease", JInt 3)]))]
        \/ l = [Posted (request_of anki "guiAnswerCard" (JObj [("ease", JInt 3)]));
                Slept 1; Posted (request_of anki "guiCurrentCard" JNull)]
        \/ l = [Posted (request_of anki "guiAnswerCard" (JObj [("ease", JInt 3)]));
                Slept 1; Posted (request_of anki "guiCurrentCard" JNull);
                Posted (request_of anki "guiShowAnswer" JNull)]).
Proof.
  destruct (answer_and_get_next_card_effects Deck review type_repr
              RefParser.BeautifulSoup 3 (fresh [apple_card; bare_card]) eq_refl)
    as (l & Hl & Hc & _).
  exists l. split; [exact Hl | exact Hc].
Defined.

Lemma answer_failure_propagates_witness :
  fst (script_answer_and_get_next_card 3 (fresh []))
  = Raise (AnkiConnectError not_reachable).
Proof.
  destruct (answer_failure_propagates Script play type_repr RefParser.BeautifulSoup
              3 (fresh []) _ (AnkiConnectError not_reachable) eq_refl eq_refl)
    as [H _].
  unfold script_answer_and_get_next_card. now rewrite H.
Defined.

Lemma card_not_a_mapping_witness :
  fst (start_learning Script play type_repr RefParser.BeautifulSoup
         (fresh [Response (envelope JNull)]))
  = Raise (AttributeError "object has no attribute 'get'")
  /\ fst (script_answer_and_get_next_card 3
            (fresh [Response (envelope (JBool true)); Response (envelope JNull)]))
     = Raise (AttributeError "object has no attribute 'get'").
Proof.
  assert (Hn : forall d, JNull <> JObj d) by discriminate.
  destruct (card_not_a_mapping Script play type_repr RefParser.BeautifulSoup
              JNull Hn) as [H1 H2].
  split.
  - now rewrite (H1 (fresh [Response (envelope JNull)]) _ eq_refl).
  - unfold script_answer_and_get_next_card.
    now rewrite (H2 3%Z
                    (fresh [Response (envelope (JBool true)); Response (envelope JNull)])
                    _ _ eq_refl eq_refl eq_refl).
Defined.

Lemma deck_finished_flag_iff_witness :
  lookup "deck_finished" deck_finished = Some (JBool true)
  /\ exists msg w3,
      script_card_info
        (after_sleep (snd (gui_answer_card Script play type_repr anki 3
                             (fresh outage_after_answer))) 1)
      = (Raise (AnkiConnectError msg), w3).
Proof.
  split; [reflexivity|].
  apply (deck_finished_flag_iff Script play type_repr RefParser.BeautifulSoup 3
           (fresh outage_after_answer) _ deck_finished _ eq_refl eq_refl eq_refl).
  reflexivity.
Defined.

Lemma view_texts_clean_witness :
  exists q a suffix,
    lookup "question" (card_info (JStr "Vocabulary") (JStr "card1") (JStr "English")
                                 "apple 是什么意思？" ("apple" ++ newline ++ "苹果"))
    = Some (JStr (q ++ suffix))
    /\ lookup "answer" (card_info (JStr "Vocabulary") (JStr "card1") (JStr "English")
                                  "apple 是什么意思？" ("apple" ++ newline ++ "苹果"))
       = Some (JStr a)
    /\ clean_lines q = q /\ clean_lines a = a
    /\ (suffix = "" \/ suffix = prompt_card2 \/ suffix = prompt_card1).
Proof.
  apply (view_texts_clean Deck review type_repr RefParser.BeautifulSoup
           (fresh [apple_card]) _ _ eq_refl).
Defined.
